(** * PDF form extractor: a shallow embedding of its field readers

    The development follows [pdf_form_extractor3.0.py] (the extractor),
    [pdfextract3.0.py] (the parser of the extractor's console output) and
    [pdfextract4.0.py] (the cycles that keep one record for each document).

    The extractor works on the object graph that PyPDF2 builds for a
    document.  That graph is modelled by the type [Value] below, and the
    Python operations the scripts apply to it ([x.get(k)], [x[k]],
    [k in x], [x.get_object()], truth tests, [isinstance], [str]) are
    modelled one by one, with the exception each of them raises on an
    operand that does not support it.  Three facts of PyPDF2 shape the
    model:
    - a dictionary object is a Python [dict]: [d.get(k)] hands out the
      stored value as it is, a reference included, whereas [d[k]] resolves
      it (the scripts rely on it when they test [isinstance(xo,
      IndirectObject)] after a [get]);
    - a reference ([IndirectObject]) only answers [get_object()]: it has no
      [get], is no container and cannot be iterated;
    - a stream read with a [/Filter] is an [EncodedStreamObject], which is
      not a [DecodedStreamObject].
    Printing is modelled as appending to the list of printed lines; it does
    not fail. *)

From Stdlib Require Import String Ascii List ZArith Bool Lia.
From stdpp Require Import base option list gmap strings pretty.
Import ListNotations.
Local Open Scope string_scope.
Local Open Scope list_scope.
Set Warnings "-register-all".
Set Warnings "-automation".
Set Default Proof Using "Type".

(** ** Exceptions *)

(** The Python exceptions the modelled operations can raise. *)
Inductive PyExc : Type :=
| AttributeError
| TypeError
| KeyError
| RecursionError
| FileNotFoundError
| PdfReadError.

(** A computation that returns a value or raises an exception. *)
Inductive exc (A : Type) : Type :=
| Return (a : A)
| Raise (e : PyExc).
Arguments Return {A} a.
Arguments Raise {A} e.

#[global] Instance exc_ret : MRet exc := fun A a => Return a.
#[global] Instance exc_bind : MBind exc := fun A B k m =>
  match m with
  | Return a => k a
  | Raise e => Raise e
  end.

(** [try: body / except Exception: handler]. *)
Definition try_except {A : Type} (body : exc A) (handler : PyExc -> A) : A :=
  match body with
  | Return a => a
  | Raise e => handler e
  end.

(** ** The object graph *)

(** PyPDF2 has two classes of stream objects, siblings under [StreamObject]:
    a stream read without a [/Filter] entry is a [DecodedStreamObject], one
    read with a [/Filter] entry is an [EncodedStreamObject]. *)
Inductive stream_class : Type :=
| DecodedStreamObject
| EncodedStreamObject.

(** The values the scripts handle.  [PyNone] is Python's [None]; the other
    constructors are PyPDF2's object classes.  A dictionary keeps its
    entries in insertion order; a stream is a dictionary with data, of which
    only the dictionary is read.  A plain Python [str] (a character of a
    string that is iterated, a dictionary key) is represented by
    [TextStringObject], which is a subclass of [str]. *)
Inductive Value : Type :=
| PyNone
| NullObject
| BooleanObject (b : bool)
| NumberObject (z : Z)
| TextStringObject (s : string)
| NameObject (s : string)
| ArrayObject (items : list Value)
| DictionaryObject (entries : list (string * Value))
| StreamObject (c : stream_class) (entries : list (string * Value))
| IndirectObject (idnum : nat).

(** The reader: the trailer dictionary and the table of indirect objects. *)
Record PdfReader : Type := {
  trailer : list (string * Value);
  objects : list (nat * Value)
}.

(** ** Python operations on values *)

Fixpoint dict_lookup (k : string) (d : list (string * Value)) : option Value :=
  match d with
  | [] => None
  | (k', v) :: rest => if String.eqb k' k then Some v else dict_lookup k rest
  end.

Fixpoint table_lookup (n : nat) (t : list (nat * Value)) : option Value :=
  match t with
  | [] => None
  | (n', v) :: rest => if Nat.eqb n' n then Some v else table_lookup n rest
  end.

(** [d.get(k)] of a Python [dict]: the stored value as it is, an indirect
    reference included, and [None] for a missing key. *)
Definition dict_get (d : list (string * Value)) (k : string) : Value :=
  match dict_lookup k d with
  | Some v => v
  | None => PyNone
  end.

(** [x.get(k)]: only dictionaries and streams have the method. *)
Definition py_get (x : Value) (k : string) : exc Value :=
  match x with
  | DictionaryObject d | StreamObject _ d => Return (dict_get d k)
  | _ => Raise AttributeError
  end.

(** [x.get(k, [])]. *)
Definition py_get_default (x : Value) (k : string) (dflt : Value) : exc Value :=
  match x with
  | DictionaryObject d | StreamObject _ d =>
      Return (match dict_lookup k d with Some v => v | None => dflt end)
  | _ => Raise AttributeError
  end.

(** Following a reference in the object table.  An undefined object is
    [None] for the non-strict reader that [load_reader] builds; a table
    entry that is itself a reference is followed in turn, and a chain that
    outlasts the table is a cycle, on which Python stops with a
    [RecursionError]. *)
Fixpoint follow (t : list (nat * Value)) (fuel : nat) (n : nat) : exc Value :=
  match table_lookup n t with
  | None => Return PyNone
  | Some (IndirectObject m) =>
      match fuel with
      | O => Raise RecursionError
      | S fuel' => follow t fuel' m
      end
  | Some v => Return v
  end.

(** [x.get_object()]: every PDF object answers with itself, a reference with
    the object it names. *)
Definition get_object (r : PdfReader) (x : Value) : exc Value :=
  match x with
  | PyNone => Raise AttributeError
  | IndirectObject n => follow (objects r) (length (objects r)) n
  | _ => Return x
  end.

(** The truth value of [x] in [if x] and [not x]. *)
Definition py_truthy (x : Value) : bool :=
  match x with
  | PyNone => false
  | NullObject => true
  | BooleanObject _ => true
  | NumberObject z => negb (Z.eqb z 0)
  | TextStringObject s | NameObject s => negb (String.eqb s "")
  | ArrayObject l => match l with [] => false | _ => true end
  | DictionaryObject d | StreamObject _ d => match d with [] => false | _ => true end
  | IndirectObject _ => true
  end.

(** [x == s] for a Python string [s]. *)
Definition py_eq_str (x : Value) (s : string) : bool :=
  match x with
  | TextStringObject t | NameObject t => String.eqb t s
  | _ => false
  end.

(** [needle in s] on strings. *)
Fixpoint str_contains (needle s : string) : bool :=
  if String.prefix needle s then true
  else match s with
       | EmptyString => false
       | String _ rest => str_contains needle rest
       end.

(** [k in x]. *)
Definition py_contains (k : string) (x : Value) : exc bool :=
  match x with
  | DictionaryObject d | StreamObject _ d =>
      Return (match dict_lookup k d with Some _ => true | None => false end)
  | ArrayObject l => Return (existsb (fun v => py_eq_str v k) l)
  | TextStringObject s | NameObject s => Return (str_contains k s)
  | _ => Raise TypeError
  end.

(** [x[k]] for a string key: a dictionary resolves the stored value. *)
Definition py_getitem (r : PdfReader) (x : Value) (k : string) : exc Value :=
  match x with
  | DictionaryObject d | StreamObject _ d =>
      match dict_lookup k d with
      | Some v => get_object r v
      | None => Raise KeyError
      end
  | _ => Raise TypeError
  end.

Fixpoint chars (s : string) : list Value :=
  match s with
  | EmptyString => []
  | String c rest => TextStringObject (String c EmptyString) :: chars rest
  end.

(** The items that [for item in x] visits. *)
Definition py_iter (x : Value) : exc (list Value) :=
  match x with
  | ArrayObject l => Return l
  | TextStringObject s | NameObject s => Return (chars s)
  | DictionaryObject d | StreamObject _ d =>
      Return (map (fun kv => TextStringObject (fst kv)) d)
  | _ => Raise TypeError
  end.

Definition is_decoded_stream (x : Value) : bool :=
  match x with StreamObject DecodedStreamObject _ => true | _ => false end.

Definition is_indirect (x : Value) : bool :=
  match x with IndirectObject _ => true | _ => false end.

Definition is_none (x : Value) : bool :=
  match x with PyNone => true | _ => false end.

(** [hasattr(x, "items")].  Dictionaries and streams have the method; whether
    an [ArrayObject] has it depends on the PyPDF2 release, which is the
    parameter [array_has_items]. *)
Definition has_items (array_has_items : bool) (x : Value) : bool :=
  match x with
  | DictionaryObject _ | StreamObject _ _ => true
  | ArrayObject _ => array_has_items
  | _ => false
  end.

(** The second components of [x.items()]: the stored values, unresolved. *)
Definition item_values (x : Value) : list Value :=
  match x with
  | DictionaryObject d | StreamObject _ d => map snd d
  | ArrayObject l => l
  | _ => []
  end.

(** [sep.join(l)]. *)
Fixpoint join (sep : string) (l : list string) : string :=
  match l with
  | [] => ""
  | [x] => x
  | x :: rest => x +:+ sep +:+ join sep rest
  end.

(** ** Text operations *)

(** Strings are sequences of characters with codes below 256.  The white
    space that [str.strip()] removes, in that range. *)
Definition is_space (c : ascii) : bool :=
  let n := nat_of_ascii c in
  (Nat.leb 9 n && Nat.leb n 13) || (Nat.leb 28 n && Nat.leb n 32)
  || Nat.eqb n 133 || Nat.eqb n 160.

Fixpoint lstrip (s : string) : string :=
  match s with
  | String c rest => if is_space c then lstrip rest else s
  | EmptyString => EmptyString
  end.

Fixpoint rstrip (s : string) : string :=
  match s with
  | String c rest =>
      let rest' := rstrip rest in
      if is_space c && String.eqb rest' "" then "" else String c rest'
  | EmptyString => EmptyString
  end.

(** [c in s] for a character. *)
Fixpoint has_char (c : ascii) (s : string) : bool :=
  match s with
  | EmptyString => false
  | String a rest => Ascii.eqb a c || has_char c rest
  end.

(** [s.strip()]. *)
Definition strip (s : string) : string := rstrip (lstrip s).

(** [s.split(sep)] for a separator of one character: the pieces between the
    separators, one piece more than there are separators. *)
Fixpoint split_on (sep : ascii) (s : string) : list string :=
  match s with
  | EmptyString => [""]
  | String c rest =>
      if Ascii.eqb c sep then "" :: split_on sep rest
      else match split_on sep rest with
           | piece :: pieces => String c piece :: pieces
           | [] => [String c ""]
           end
  end.

(** [s.split(sep, 1)] when [sep] occurs in [s]: what is before the first
    separator and what is after it. *)
Fixpoint split_once (sep : ascii) (s : string) : string * string :=
  match s with
  | EmptyString => ("", "")
  | String c rest =>
      if Ascii.eqb c sep then ("", rest)
      else let '(before, after) := split_once sep rest in (String c before, after)
  end.

(** [value.replace(', ', ',')]: the occurrences are replaced from left to
    right without overlap. *)
Fixpoint replace_comma_space (s : string) : string :=
  match s with
  | String "," (String " " rest) => String "," (replace_comma_space rest)
  | String c rest => String c (replace_comma_space rest)
  | EmptyString => EmptyString
  end.

(** The part of [s] before its first line break: what [.] can match. *)
Fixpoint until_newline (s : string) : string :=
  match s with
  | EmptyString => EmptyString
  | String c rest => if Ascii.eqb c "010" then "" else String c (until_newline rest)
  end.

(** The part of [s] before its last colon, when there is one. *)
Fixpoint before_last_colon (s : string) : option string :=
  match s with
  | EmptyString => None
  | String c rest =>
      match before_last_colon rest with
      | Some g => Some (String c g)
      | None => if Ascii.eqb c ":" then Some "" else None
      end
  end.

(** The group of [(.+):] matched at the start of [s]: greedy, not empty. *)
Definition match_group_colon (s : string) : option string :=
  match before_last_colon (until_newline s) with
  | Some "" => None
  | other => other
  end.

(** [s] without the prefix [p], when it starts with it. *)
Fixpoint strip_prefix (p s : string) : option string :=
  match p, s with
  | EmptyString, _ => Some s
  | String a p', String b s' => if Ascii.eqb a b then strip_prefix p' s' else None
  | String _ _, EmptyString => None
  end.

(** [re.search(r'Extraction results for (.+):', line)]: group 1 of the
    leftmost match. *)
Fixpoint search_results_for (line : string) : option string :=
  let here :=
    match strip_prefix "Extraction results for " line with
    | Some rest => match_group_colon rest
    | None => None
    end in
  match here with
  | Some g => Some g
  | None =>
      match line with
      | EmptyString => None
      | String _ rest => search_results_for rest
      end
  end.

(** ** What the scripts print *)

(** The lines written to standard output.  The timestamped diagnostics keep
    their arguments; [Out] is a line printed as it is. *)
Inductive Printed : Type :=
| INFO_processing (pdf_path : string)
| INFO_results (filename : string)
| WARN_value (field_name : string) (e : PyExc)
| WARN_options (field_name : string) (e : PyExc)
| WARN_image (field_name : string) (e : PyExc)
| ERROR_extraction (pdf_path : string) (e : PyExc)
| ERROR_directory (folder_path : string)
| ERROR_no_pdfs (folder_path : string)
| INFO_cycle_start (cycle_number : nat)
| INFO_found (n cycle_number : nat)
| INFO_cycle_summary (cycle_number succeeded attempted : nat)
| WARN_cycle_failed (cycle_number failed : nat)
| Out (line : string).

(** The dictionary that [process_pdf] returns. *)
Record ExtractionResult : Type := {
  filename : string;
  doc_num : string;
  corner_of_section : string;
  township : string;
  range : string;
  county : string;
  image_present_bool : bool;
  image_present_flag : string;
  township_options : list string;
  range_options : list string;
  county_options : list string
}.

(** ** pdfextract3.0.py *)

(** A value of a parsed record: a string, or the boolean of
    [image_present_bool]. *)
Inductive Cell : Type :=
| CStr (s : string)
| CBool (b : bool).

Definition key_map : list (string * string) :=
  [ ("Doc Num", "doc_num");
    ("Corner of Section", "corner_of_section");
    ("Township (value)", "township");
    ("Range (value)", "range");
    ("County (value)", "county");
    ("Image present (bool)", "image_present_bool");
    ("Image present (Y/N)", "image_present_flag");
    ("Township options", "township_options");
    ("Range options", "range_options");
    ("County options", "county_options") ].

Fixpoint key_map_get (key : string) (m : list (string * string)) : option string :=
  match m with
  | [] => None
  | (k, v) :: rest => if String.eqb k key then Some v else key_map_get key rest
  end.

(** The truth value of [current_result]: a dictionary that is not empty. *)
Definition result_truthy (current_result : option (gmap string Cell)) : bool :=
  match current_result with
  | Some d => negb (bool_decide (d = ∅))
  | None => false
  end.

(** The value stored under an options key. *)
Definition normalize_options (value : string) : string :=
  if String.eqb value "None" || String.eqb value "" then ""
  else replace_comma_space value.

(** The value stored under [mapped_key]. *)
Definition parsed_cell (mapped_key value : string) : Cell :=
  if String.eqb mapped_key "image_present_bool" then CBool (String.eqb value "True")
  else if str_contains "options" mapped_key then CStr (normalize_options value)
  else CStr value.

(** [results.append(current_result)]. *)
Definition append_result (results : list (gmap string Cell))
    (current_result : option (gmap string Cell)) : list (gmap string Cell) :=
  match current_result with
  | Some d => results ++ [d]
  | None => results
  end.

(** One round of the loop of [parse_batch_output], on the pair of [results]
    and [current_result]. *)
Definition parse_line (st : list (gmap string Cell) * option (gmap string Cell))
    (line : string) : list (gmap string Cell) * option (gmap string Cell) :=
  let '(results, current_result) := st in
  if str_contains "Extraction results for" line then
    match search_results_for line with
    | Some name =>
        ((if result_truthy current_result then append_result results current_result
          else results),
         Some {[ "filename" := CStr name ]})
    | None => st
    end
  else if result_truthy current_result && str_contains ":" line then
    let '(before, after) := split_once ":" line in
    let key := strip before in
    let value := strip after in
    match key_map_get key key_map with
    | Some mapped_key =>
        (results, (fun d => <[mapped_key := parsed_cell mapped_key value]> d) <$> current_result)
    | None => st
    end
  else if str_contains "---" line && result_truthy current_result then
    (append_result results current_result, None)
  else st.

Definition parse_batch_output (output : string) : list (gmap string Cell) :=
  let lines := split_on "010" (strip output) in
  let '(results, current_result) := fold_left parse_line lines ([], None) in
  if result_truthy current_result then append_result results current_result
  else results.


(** ** pdfextract4.0.py *)

(** The values of a record are hashable: they are the members of
    [seen_identifiers]. *)
#[global] Instance Cell_eq_dec : EqDecision Cell := ltac:(solve_decision).

Definition cell_to_sum (c : Cell) : string + bool :=
  match c with
  | CStr s => inl s
  | CBool b => inr b
  end.

Definition cell_of_sum (x : string + bool) : Cell :=
  match x with
  | inl s => CStr s
  | inr b => CBool b
  end.

#[global] Instance Cell_countable : Countable Cell :=
  inj_countable' cell_to_sum cell_of_sum
    (fun c => match c with CStr _ => eq_refl | CBool _ => eq_refl end).

(** The truth value of a cell. *)
Definition cell_truthy (c : Cell) : bool :=
  match c with
  | CStr s => negb (String.eqb s "")
  | CBool b => b
  end.

(** [result.get('doc_num') or result.get('filename')]; [None] when neither
    key gives a true value and "filename" is missing. *)
Definition identifier_of (result : gmap string Cell) : option Cell :=
  match result !! "doc_num" with
  | Some c => if cell_truthy c then Some c else result !! "filename"
  | None => result !! "filename"
  end.

(** The loop of [process_cycle] that filters the records: [unique_results]
    and [seen_identifiers] after it. *)
Fixpoint unique_results (results_list : list (gmap string Cell)) (seen_identifiers : gset Cell)
  : list (gmap string Cell) * gset Cell :=
  match results_list with
  | [] => ([], seen_identifiers)
  | result :: rest =>
      match identifier_of result with
      | Some identifier =>
          if cell_truthy identifier && negb (bool_decide (identifier ∈ seen_identifiers))
          then
            let '(unique, seen) := unique_results rest ({[ identifier ]} ∪ seen_identifiers) in
            (result :: unique, seen)
          else unique_results rest seen_identifiers
      | None => unique_results rest seen_identifiers
      end
  end.

(** The lines that [process_cycle] prints. *)
Inductive CyclePrinted : Type :=
| INFO_starting_cycle (cycle_number : nat)
| INFO_batch_executed (cycle_number : nat)
| ERROR_batch_failed (cycle_number : nat)
| Batch_stderr
| WARN_no_results (cycle_number : nat)
| INFO_new_unique (cycle_number n : nat).

(** [process_cycle], given how the batch script ended: [Some] of its
    standard output, or [None] when [subprocess.run] raised
    [CalledProcessError].  The result is the list returned, the set
    [seen_identifiers] as the call leaves it, and what was printed. *)
Definition process_cycle (cycle_number : nat) (seen_identifiers : gset Cell)
    (batch_result : option string)
  : list (gmap string Cell) * gset Cell * list CyclePrinted :=
  match batch_result with
  | None =>
      ([], seen_identifiers,
       [INFO_starting_cycle cycle_number; ERROR_batch_failed cycle_number; Batch_stderr])
  | Some batch_output =>
      match parse_batch_output batch_output with
      | [] =>
          ([], seen_identifiers,
           [INFO_starting_cycle cycle_number; INFO_batch_executed cycle_number;
            WARN_no_results cycle_number])
      | results_list =>
          let '(unique, seen) := unique_results results_list seen_identifiers in
          (unique, seen,
           [INFO_starting_cycle cycle_number; INFO_batch_executed cycle_number;
            INFO_new_unique cycle_number (length unique)])
      end
  end.

(** The loop of [main]: one call of [process_cycle] for each cycle that the
    clock allows, [batch_results] holding how the batch script ended in
    each; [all_results] and [seen_identifiers] after the loop. *)
Fixpoint run_cycles (batch_results : list (option string)) (cycle_count : nat)
    (all_results : list (gmap string Cell)) (seen_identifiers : gset Cell)
  : list (gmap string Cell) * gset Cell :=
  match batch_results with
  | [] => (all_results, seen_identifiers)
  | batch_result :: rest =>
      let '(cycle_results, seen, _) :=
        process_cycle (S cycle_count) seen_identifiers batch_result in
      run_cycles rest (S cycle_count) (all_results ++ cycle_results) seen
  end.

(** The identifier under which the filter of [process_cycle] registers a
    record: its "doc_num", or its "filename" when "doc_num" is missing or
    empty; none when that value is missing or not true. *)
Definition registered_identifier (result : gmap string Cell) : option Cell :=
  match identifier_of result with
  | Some identifier => if cell_truthy identifier then Some identifier else None
  | None => None
  end.

Definition registered_identifiers (results : list (gmap string Cell)) : list Cell :=
  omap registered_identifier results.
(** ** Documents used as examples *)

(** A catalog whose form lists [fields]. *)
Definition catalog_of (fields : list Value) : Value :=
  DictionaryObject
    [ ("/Type", NameObject "/Catalog");
      ("/AcroForm", DictionaryObject [("/Fields", ArrayObject fields)]) ].

(** A document whose trailer holds the catalog itself. *)
Definition document (fields : list Value) (table : list (nat * Value)) : PdfReader :=
  {| trailer := [("/Root", catalog_of fields)]; objects := table |}.

(** A Button named "Survey Image" with an icon and no appearance. *)
Definition icon_button : Value :=
  DictionaryObject
    [ ("/T", TextStringObject "Survey Image");
      ("/FT", NameObject "/Btn");
      ("/MK", DictionaryObject [("/I", IndirectObject 7)]) ].

Definition icon_document : PdfReader :=
  document [IndirectObject 4]
    [ (4, icon_button);
      (7, StreamObject EncodedStreamObject [("/Subtype", NameObject "/Image")]) ].

(** A Button whose normal appearance is object 5, with one XObject, object 6. *)
Definition appearance_button : Value :=
  DictionaryObject
    [ ("/T", TextStringObject "Survey Image");
      ("/FT", NameObject "/Btn");
      ("/AP", DictionaryObject [("/N", IndirectObject 5)]) ].

Definition appearance_stream (c : stream_class) : Value :=
  StreamObject c
    [ ("/Type", NameObject "/XObject");
      ("/Subtype", NameObject "/Form");
      ("/Resources",
       DictionaryObject [("/XObject", DictionaryObject [("/Im0", IndirectObject 6)])]) ].

Definition image_xobject : Value :=
  StreamObject EncodedStreamObject
    [ ("/Type", NameObject "/XObject"); ("/Subtype", NameObject "/Image") ].

(** The normal appearance is an unfiltered stream. *)
Definition plain_appearance_document : PdfReader :=
  document [IndirectObject 4]
    [ (4, appearance_button); (5, appearance_stream DecodedStreamObject); (6, image_xobject) ].

(** The normal appearance is a stream with a [/Filter], as compressed
    appearance streams are. *)
Definition filtered_appearance_document : PdfReader :=
  document [IndirectObject 4]
    [ (4, appearance_button); (5, appearance_stream EncodedStreamObject); (6, image_xobject) ].

(** A document as PDF writers produce it: the trailer refers to the catalog,
    object 1. *)
Definition referenced_catalog_document : PdfReader :=
  {| trailer := [("/Root", IndirectObject 1)];
     objects := [ (1, catalog_of [IndirectObject 4]); (4, icon_button);
                  (7, StreamObject EncodedStreamObject [("/Subtype", NameObject "/Image")]) ] |}.

(** A document without form. *)
Definition formless_document : PdfReader :=
  {| trailer := [("/Root", IndirectObject 1)];
     objects := [ (1, DictionaryObject [("/Type", NameObject "/Catalog")]) ] |}.

(** A choice field with a bare option and an [export, display] pair. *)
Definition township_field : Value :=
  DictionaryObject
    [ ("/T", TextStringObject "Township");
      ("/FT", NameObject "/Ch");
      ("/V", TextStringObject "1N");
      ("/Opt", ArrayObject
                 [ TextStringObject "1N";
                   ArrayObject [TextStringObject "2N"; TextStringObject "Two North"] ]) ].

Definition township_document : PdfReader :=
  document [IndirectObject 4] [(4, township_field)].



(** A library traversal that fails, and one that finds no field. *)
Definition failing_walk (reader : PdfReader) (tree : Value) : exc (gmap string Value) :=
  Raise PdfReadError.

Definition empty_walk (reader : PdfReader) (tree : Value) : exc (gmap string Value) :=
  Return ∅.

Definition no_repr (x : Value) : string := "".

(** A folder with a readable document and one that [PdfReader] cannot parse. *)
Definition example_files (pdf_path : string) : option (exc PdfReader) :=
  if String.eqb pdf_path "a.pdf" then Some (Return formless_document)
  else if String.eqb pdf_path "corrupt.pdf" then Some (Raise PdfReadError)
  else if String.eqb pdf_path "b.pdf" then Some (Return formless_document)
  else None.

Definition example_basename (pdf_path : string) : string := pdf_path.

(** A choice field one of whose options holds a line break, in a document
    without "Survey Image" button. *)
Definition two_line_option : string :=
  "1N" +:+ String "010" "Image present (bool): True".

Definition two_line_field : Value :=
  DictionaryObject
    [ ("/T", TextStringObject "Township");
      ("/FT", NameObject "/Ch");
      ("/Opt", ArrayObject [TextStringObject two_line_option]) ].

Definition two_line_document : PdfReader :=
  document [IndirectObject 4] [(4, two_line_field)].

Definition two_line_files (pdf_path : string) : option (exc PdfReader) :=
  if String.eqb pdf_path "form.pdf" then Some (Return two_line_document) else None.

Definition icon_files (pdf_path : string) : option (exc PdfReader) :=
  if String.eqb pdf_path "form.pdf" then Some (Return icon_document)
  else if String.eqb pdf_path "corrupt.pdf" then Some (Raise PdfReadError)
  else None.

Definition example_ts : string := "2025-01-01 00:00:00".

Definition example_exc_text (e : PyExc) : string := "error".


(** The folder of [example_files]. *)
Definition example_glob (folder_path : string) : option (list string) :=
  if String.eqb folder_path "forms" then Some ["a.pdf"; "corrupt.pdf"; "b.pdf"] else None.

(** A choice field whose only option is the word "None". *)
Definition none_option_field : Value :=
  DictionaryObject
    [ ("/T", TextStringObject "Township");
      ("/FT", NameObject "/Ch");
      ("/Opt", ArrayObject [TextStringObject "None"]) ].

Definition none_option_document : PdfReader :=
  document [IndirectObject 4] [(4, none_option_field)].

Definition none_option_files (pdf_path : string) : option (exc PdfReader) :=
  if String.eqb pdf_path "form.pdf" then Some (Return none_option_document) else None.

Definition township_files (pdf_path : string) : option (exc PdfReader) :=
  if String.eqb pdf_path "form.pdf" then Some (Return township_document) else None.

(** The choice field "Township" in a document as PDF writers produce it:
    the trailer refers to the catalog, object 1. *)
Definition referenced_township_document : PdfReader :=
  {| trailer := [("/Root", IndirectObject 1)];
     objects := [ (1, catalog_of [IndirectObject 4]); (4, township_field) ] |}.

(** A text field with a value, and a form that lists it together with a
    reference to an object that the file does not hold. *)
Definition doc_num_field : Value :=
  DictionaryObject
    [ ("/T", TextStringObject "Doc Num");
      ("/FT", NameObject "/Tx");
      ("/V", TextStringObject "D-1") ].

Definition sound_document : PdfReader :=
  document [IndirectObject 4] [(4, doc_num_field)].

Definition dangling_document : PdfReader :=
  document [IndirectObject 4; IndirectObject 9] [(4, doc_num_field)].

Definition dangling_files (pdf_path : string) : option (exc PdfReader) :=
  if String.eqb pdf_path "sound.pdf" then Some (Return sound_document)
  else if String.eqb pdf_path "dangling.pdf" then Some (Return dangling_document)
  else None.
(** ** pdf_form_extractor3.0.py *)

Definition DOC_NUM_FIELD : string := "Doc Num".
Definition CORNER_OF_SECTION_FIELD : string := "Corner of Section".
Definition TOWNSHIP_FIELD : string := "Township".
Definition RANGE_FIELD : string := "Range".
Definition COUNTY_FIELD : string := "County".
Definition SURVEY_IMAGE_FIELD : string := "Survey Image".

Section Extractor.

(** What the scripts take from their environment: [str(x)] of an object
    that is not a string, the traversal of the form tree inside PyPDF2's
    [get_fields], the PyPDF2 release, the files ([None] for a path that
    does not exist, otherwise what [PdfReader(path)] does),
    [os.path.basename], the [*.pdf] files of a folder ([None] when it is
    not a directory), the reading of the clock and the text of an
    exception. *)
Variable py_repr : Value -> string.
Variable walk_form_tree : PdfReader -> Value -> exc (gmap string Value).
Variable array_has_items : bool.
Variable files : string -> option (exc PdfReader).
Variable basename : string -> string.
Variable glob_pdfs : string -> option (list string).
Variable ts : string.
Variable exc_text : PyExc -> string.

(** [str(x)]. *)
Definition py_str (x : Value) : string :=
  match x with
  | TextStringObject s | NameObject s => s
  | PyNone => "None"
  | _ => py_repr x
  end.

Definition load_reader (pdf_path : string) : exc PdfReader :=
  match files pdf_path with
  | None => Raise FileNotFoundError
  | Some r => r
  end.

(** PyPDF2's [PdfReader.get_fields()].  It is library code; its entry is
    modelled as the library documents it: the catalog is [trailer["/Root"]],
    and the result is [None] ("form data could not be located") when the
    catalog has no [/AcroForm] key.  The traversal below the form
    dictionary is [walk_form_tree]. *)
Definition get_fields (reader : PdfReader) : exc (option (gmap string Value)) :=
  catalog ← py_getitem reader (DictionaryObject (trailer reader)) "/Root";
  has ← py_contains "/AcroForm" catalog;
  if (has : bool) then
    tree ← py_getitem reader catalog "/AcroForm";
    retval ← walk_form_tree reader tree;
    Return (Some retval)
  else Return None.

(** [fields[name] = obj].  A string is a key; a boolean, a reference, an
    array or a dictionary is not hashable; any other name is a key that no
    string equals, so that no lookup by field name observes it. *)
Definition fields_setitem (fields : gmap string Value) (name obj : Value)
  : exc (gmap string Value) :=
  match name with
  | TextStringObject s | NameObject s => Return (<[s:=obj]> fields)
  | PyNone | NullObject | NumberObject _ => Return fields
  | _ => Raise TypeError
  end.

(** The loop of the fallback of [get_fields_dict]. *)
Fixpoint index_fields (reader : PdfReader) (fs : list Value)
    (fields : gmap string Value) : exc (gmap string Value) :=
  match fs with
  | [] => Return fields
  | f :: rest =>
      obj ← get_object reader f;
      name ← py_get obj "/T";
      if py_truthy name then
        fields' ← fields_setitem fields name obj;
        index_fields reader rest fields'
      else index_fields reader rest fields
  end.

(** The [except] branch of [get_fields_dict]. *)
Definition fields_fallback (reader : PdfReader) : exc (gmap string Value) :=
  let root := dict_get (trailer reader) "/Root" in
  acro ← (if py_truthy root then py_get root "/AcroForm" else Return PyNone);
  if py_truthy acro then
    a ← get_object reader acro;
    has ← py_contains "/Fields" a;
    if (has : bool) then
      a' ← get_object reader acro;
      fs ← py_getitem reader a' "/Fields";
      items ← py_iter fs;
      index_fields reader items ∅
    else Return ∅
  else Return ∅.

Definition get_fields_dict (reader : PdfReader) : exc (option (gmap string Value)) :=
  match get_fields reader with
  | Return v => Return v
  | Raise _ => fields ← fields_fallback reader; Return (Some fields)
  end.

(** The loop of [find_field_obj]. *)
Fixpoint scan_fields (reader : PdfReader) (field_name : string) (fs : list Value)
  : exc Value :=
  match fs with
  | [] => Return PyNone
  | f :: rest =>
      obj ← get_object reader f;
      t ← py_get obj "/T";
      if py_eq_str t field_name then Return obj
      else scan_fields reader field_name rest
  end.

Definition find_field_obj (reader : PdfReader) (field_name : string) : exc Value :=
  let root := dict_get (trailer reader) "/Root" in
  acro ← (if py_truthy root then py_get root "/AcroForm" else Return PyNone);
  if negb (py_truthy acro) then Return PyNone
  else
    a ← get_object reader acro;
    fs ← py_get_default a "/Fields" (ArrayObject []);
    items ← py_iter fs;
    scan_fields reader field_name items.

(** The [try] block of [get_value]. *)
Definition get_value_body (fields_dict : option (gmap string Value))
    (field_name : string) : exc string :=
  match fields_dict with
  | None => Raise AttributeError
  | Some d =>
      match d !! field_name with
      | None => Return ""
      | Some entry =>
          if is_none entry then Return ""
          else
            val ← py_get entry "/V";
            Return (if is_none val then "" else py_str val)
      end
  end.

Definition get_value (fields_dict : option (gmap string Value))
    (field_name : string) : string * list Printed :=
  try_except
    (v ← get_value_body fields_dict field_name; Return (v, []))
    (fun e => ("", [WARN_value field_name e])).

(** One round of the loop of [get_choice_options]. *)
Definition option_text (item : Value) : string :=
  match item with
  | ArrayObject (first :: _) => py_str first
  | _ => py_str item
  end.

(** The [try] block of [get_choice_options].  No step of the loop raises,
    so [options] is still empty whenever the handler runs. *)
Definition get_choice_options_body (reader : PdfReader) (field_name : string)
  : exc (list string) :=
  obj ← find_field_obj reader field_name;
  if negb (py_truthy obj) then Return []
  else
    opt ← py_get obj "/Opt";
    if negb (py_truthy opt) then Return []
    else
      items ← py_iter opt;
      Return (map option_text items).

Definition get_choice_options (reader : PdfReader) (field_name : string)
  : list string * list Printed :=
  try_except
    (options ← get_choice_options_body reader field_name; Return (options, []))
    (fun e => ([], [WARN_options field_name e])).

(** One round of the loop over [xo.items()], with its own [try]. *)
Definition xobject_is_image (reader : PdfReader) (xobj : Value) : bool :=
  try_except
    (xobj_obj ← get_object reader xobj;
     subtype ← py_get xobj_obj "/Subtype";
     Return (py_eq_str subtype "/Image"))
    (fun _ => false).

(** The scan of the normal appearance, entered when [ap] is true and
    holds [/N]; [true] stands for the [return True] of the loop. *)
Definition scan_appearance (reader : PdfReader) (ap : Value) : exc bool :=
  apn ← py_getitem reader ap "/N";
  let apn_obj := try_except (get_object reader apn) (fun _ => apn) in
  if is_decoded_stream apn_obj then
    resources ← py_get apn_obj "/Resources";
    if py_truthy resources then
      xo ← py_get resources "/XObject";
      xo ← (if is_indirect xo then get_object reader xo else Return xo);
      if py_truthy xo && has_items array_has_items xo then
        Return (existsb (xobject_is_image reader) (item_values xo))
      else Return false
    else Return false
  else Return false.

(** The [try] block of [detect_image_in_button]. *)
Definition detect_image_body (reader : PdfReader) (field_name : string) : exc bool :=
  obj ← find_field_obj reader field_name;
  if negb (py_truthy obj) then Return false
  else
    ft ← py_get obj "/FT";
    if negb (py_eq_str ft "/Btn") then Return false
    else
      mk ← py_get obj "/MK";
      icon ← (if py_truthy mk
              then i ← py_get mk "/I"; Return (negb (is_none i))
              else Return false);
      if (icon : bool) then Return true
      else
        ap ← py_get obj "/AP";
        found ← (if py_truthy ap
                 then has ← py_contains "/N" ap;
                      if (has : bool) then scan_appearance reader ap
                      else Return false
                 else Return false);
        if (found : bool) then Return true
        else
          let root := dict_get (trailer reader) "/Root" in
          names ← (if py_truthy root then py_get root "/Names" else Return PyNone);
          _ ← (if py_truthy names then py_get names "/EmbeddedFiles"
               else Return PyNone);
          Return false.

Definition detect_image_in_button (reader : PdfReader) (field_name : string)
  : bool * list Printed :=
  try_except
    (b ← detect_image_body reader field_name; Return (b, []))
    (fun e => (false, [WARN_image field_name e])).



Definition bool_text (b : bool) : string := if b then "True" else "False".

(** [', '.join(options) if options else 'None']. *)
Definition options_text (options : list string) : string :=
  match options with
  | [] => "None"
  | _ => join ", " options
  end.

Definition separator : string :=
  "--------------------------------------------------".

(** What [process_pdf] prints once the fields are read. *)
Definition results_block (res : ExtractionResult) : list Printed :=
  [ INFO_results (filename res);
    Out ("Doc Num: " +:+ doc_num res);
    Out ("Corner of Section: " +:+ corner_of_section res);
    Out ("Township (value): " +:+ township res);
    Out ("Range (value): " +:+ range res);
    Out ("County (value): " +:+ county res);
    Out ("Image present (bool): " +:+ bool_text (image_present_bool res));
    Out ("Image present (Y/N): " +:+ image_present_flag res);
    Out ("Township options: " +:+ options_text (township_options res));
    Out ("Range options: " +:+ options_text (range_options res));
    Out ("County options: " +:+ options_text (county_options res));
    Out separator ].

(** The [try] block of [process_pdf] once the reader and the index are
    there: none of the calls below can raise. *)
Definition extract (pdf_path : string) (reader : PdfReader)
    (fields : option (gmap string Value)) : ExtractionResult * list Printed :=
  let '(doc_num, p1) := get_value fields DOC_NUM_FIELD in
  let '(corner_of_section, p2) := get_value fields CORNER_OF_SECTION_FIELD in
  let '(township, p3) := get_value fields TOWNSHIP_FIELD in
  let '(range_value, p4) := get_value fields RANGE_FIELD in
  let '(county, p5) := get_value fields COUNTY_FIELD in
  let '(township_options, p6) := get_choice_options reader TOWNSHIP_FIELD in
  let '(range_options, p7) := get_choice_options reader RANGE_FIELD in
  let '(county_options, p8) := get_choice_options reader COUNTY_FIELD in
  let '(image_present_bool, p9) := detect_image_in_button reader SURVEY_IMAGE_FIELD in
  let image_present_flag := if image_present_bool then "Y" else "N" in
  let res :=
    {| filename := basename pdf_path;
       doc_num := doc_num;
       corner_of_section := corner_of_section;
       township := township;
       range := range_value;
       county := county;
       image_present_bool := image_present_bool;
       image_present_flag := image_present_flag;
       township_options := township_options;
       range_options := range_options;
       county_options := county_options |} in
  (res, p1 ++ p2 ++ p3 ++ p4 ++ p5 ++ p6 ++ p7 ++ p8 ++ p9 ++ results_block res).

(** [process_pdf]: the record, or [None] after the [except] branch. *)
Definition process_pdf (pdf_path : string) : option ExtractionResult * list Printed :=
  let '(result, printed) :=
    try_except
      (reader ← load_reader pdf_path;
       fields ← get_fields_dict reader;
       let '(res, printed) := extract pdf_path reader fields in
       Return (Some res, printed))
      (fun e => (None, [ERROR_extraction pdf_path e])) in
  (result, INFO_processing pdf_path :: printed).

(** The loop of [process_batch]: [results] and what is printed.  The
    record of a document is a dictionary with eleven keys, hence true. *)
Fixpoint process_files (pdf_files : list string)
  : list ExtractionResult * list Printed :=
  match pdf_files with
  | [] => ([], [])
  | pdf_path :: rest =>
      let '(result, p1) := process_pdf pdf_path in
      let '(results, p2) := process_files rest in
      (match result with Some res => res :: results | None => results end,
       p1 ++ p2)
  end.

Definition process_batch (folder_path : string) (cycle_number : nat)
  : (nat * nat) * list Printed :=
  match glob_pdfs folder_path with
  | None => ((0, 0), [INFO_cycle_start cycle_number; ERROR_directory folder_path])
  | Some [] => ((0, 0), [INFO_cycle_start cycle_number; ERROR_no_pdfs folder_path])
  | Some pdf_files =>
      let '(results, printed) := process_files pdf_files in
      let attempted := length pdf_files in
      let succeeded := length results in
      ((attempted, succeeded),
       [INFO_cycle_start cycle_number; INFO_found attempted cycle_number]
       ++ printed
       ++ [INFO_cycle_summary cycle_number succeeded attempted]
       ++ (if Nat.ltb succeeded attempted
           then [WARN_cycle_failed cycle_number (attempted - succeeded)]
           else []))
  end.

(** The text of a printed line. *)
Definition stamp (level msg : string) : string :=
  "[" +:+ ts +:+ "] " +:+ level +:+ ": " +:+ msg.

Definition console_line (p : Printed) : string :=
  match p with
  | INFO_processing pdf_path => stamp "INFO" ("Processing " +:+ pdf_path)
  | INFO_results name => stamp "INFO" ("Extraction results for " +:+ name +:+ ":")
  | WARN_value field_name e =>
      stamp "WARN" ("Could not read value for '" +:+ field_name +:+ "': " +:+ exc_text e)
  | WARN_options field_name e =>
      stamp "WARN" ("Could not read options for '" +:+ field_name +:+ "': " +:+ exc_text e)
  | WARN_image field_name e =>
      stamp "WARN" ("Image detection error for '" +:+ field_name +:+ "': " +:+ exc_text e)
  | ERROR_extraction pdf_path e =>
      "[" +:+ ts +:+ "] ERROR during extraction of " +:+ pdf_path +:+ ": " +:+ exc_text e
  | ERROR_directory folder_path => stamp "ERROR" ("Directory not found: " +:+ folder_path)
  | ERROR_no_pdfs folder_path => stamp "ERROR" ("No PDFs found in " +:+ folder_path)
  | INFO_cycle_start n => stamp "INFO" ("Starting cycle " +:+ pretty n)
  | INFO_found n c =>
      stamp "INFO" ("Found " +:+ pretty n +:+ " PDFs in cycle " +:+ pretty c +:+ ".")
  | INFO_cycle_summary c s a =>
      stamp "INFO" ("Cycle " +:+ pretty c +:+ " processed " +:+ pretty s +:+ "/"
                    +:+ pretty a +:+ " PDFs successfully.")
  | WARN_cycle_failed c f =>
      stamp "WARN" ("Cycle " +:+ pretty c +:+ " failed to process " +:+ pretty f +:+ " PDFs.")
  | Out line => line
  end.

(** Standard output: every printed line ends with a line break. *)
Fixpoint console (printed : list Printed) : string :=
  match printed with
  | [] => ""
  | p :: rest => console_line p +:+ String "010" (console rest)
  end.


(** ** The properties, in the words of the specification *)

(** The field's type is Button. *)
Definition is_button (obj : Value) : Prop :=
  exists ft, py_get obj "/FT" = Return ft /\ py_eq_str ft "/Btn" = true.

(** The field's appearance-characteristics dictionary holds an icon. *)
Definition has_icon (obj : Value) : Prop :=
  exists mk i, py_get obj "/MK" = Return mk /\ py_get mk "/I" = Return i /\ i <> PyNone.

(** The field has no icon entry: [/MK] is missing or empty, or it is a
    dictionary without [/I]. *)
Definition no_icon (obj : Value) : Prop :=
  exists mk, py_get obj "/MK" = Return mk
             /\ (py_truthy mk = false \/ py_get mk "/I" = Return PyNone).

(** An entry of the XObject dictionary of the resources of the field's
    normal appearance resolves to a dictionary whose subtype is Image; the
    normal appearance is a stream of class [c]. *)
Definition appearance_image (reader : PdfReader) (obj : Value) (c : stream_class) : Prop :=
  exists ap n entries resources xo container xobj target subtype,
    py_get obj "/AP" = Return ap
    /\ py_get ap "/N" = Return n
    /\ get_object reader n = Return (StreamObject c entries)
    /\ dict_get entries "/Resources" = resources
    /\ py_get resources "/XObject" = Return xo
    /\ get_object reader xo = Return container
    /\ has_items array_has_items container = true
    /\ In xobj (item_values container)
    /\ get_object reader xobj = Return target
    /\ py_get target "/Subtype" = Return subtype
    /\ py_eq_str subtype "/Image" = true.

(** The same, whatever the class of the stream. *)
Definition normal_appearance_image (reader : PdfReader) (obj : Value) : Prop :=
  exists c, appearance_image reader obj c.

(** An option as it is stored, and the text the form author exports for
    it: a bare string, or the first element of an [export, display] pair. *)
Inductive stored_option : Value -> string -> Prop :=
| stored_bare (s : string) : stored_option (TextStringObject s) s
| stored_pair (export : string) (display : Value) :
    stored_option (ArrayObject [TextStringObject export; display]) export.

(** [obj] is a field named [field_name]. *)
Definition named (field_name : string) (obj : Value) : bool :=
  match py_get obj "/T" with
  | Return t => py_eq_str t field_name
  | Raise _ => false
  end.





(** The document has a catalog, and the catalog has no form. *)
Definition no_form (reader : PdfReader) : Prop :=
  exists catalog,
    py_getitem reader (DictionaryObject (trailer reader)) "/Root" = Return catalog
    /\ py_contains "/AcroForm" catalog = Return false.

(** The two image outputs of a record agree. *)
Definition consistent_result (res : ExtractionResult) : Prop :=
  (image_present_flag res = "Y" <-> image_present_bool res = true)
  /\ (image_present_flag res = "N" <-> image_present_bool res = false).

(** The same for a record that [parse_batch_output] builds. *)
Definition consistent_record (d : gmap string Cell) : Prop :=
  (d !! "image_present_flag" = Some (CStr "Y")
   <-> d !! "image_present_bool" = Some (CBool true))
  /\ (d !! "image_present_flag" = Some (CStr "N")
      <-> d !! "image_present_bool" = Some (CBool false)).

(** A printed text that holds no line break. *)
Definition single_line (s : string) : Prop := has_char "010" s = false.

(** An option list that the printed line can carry: it is not empty, no
    entry holds a comma, and its text joined with ", " neither starts nor
    ends with white space and is not the word that stands for no option. *)
Definition plain_options (options : list string) : Prop :=
  options <> []
  /\ Forall (fun x => has_char "," x = false) options
  /\ strip (join ", " options) = join ", " options
  /\ join ", " options <> "None".

(** ** Notions used in the proofs about the parser *)

(** The key that the parser reads off a line. *)
Definition key_of (line : string) : string := strip (fst (split_once ":" line)).

(** A line that cannot set either image key. *)
Definition safe_line (line : string) : Prop :=
  has_char ":" line = false
  \/ (key_of line <> "Image present (bool)" /\ key_of line <> "Image present (Y/N)").

Definition bool_line (b : bool) : string := "Image present (bool): " +:+ bool_text b.
Definition flag_line (b : bool) : string :=
  "Image present (Y/N): " +:+ (if b then "Y" else "N").

(** Lines in which the two image lines only come as the pair that
    [process_pdf] prints. *)
Inductive paired_lines : list string -> Prop :=
| paired_nil : paired_lines []
| paired_safe (line : string) (rest : list string) :
    safe_line line -> paired_lines rest -> paired_lines (line :: rest)
| paired_image (b : bool) (rest : list string) :
    paired_lines rest -> paired_lines (bool_line b :: flag_line b :: rest).

(** [lines'] is [lines] without its last lines when they are blank, and with
    the last line that is kept stripped at its end. *)
Inductive rstripped : list string -> list string -> Prop :=
| rstripped_last (line : string) (rest : list string) :
    Forall (fun l => rstrip l = "") rest -> rstripped (line :: rest) [rstrip line]
| rstripped_cons (line : string) (rest rest' : list string) :
    rstripped rest rest' -> rstripped (line :: rest) (line :: rest').

(** The state of the parser holds consistent records only. *)
Definition consistent_state (st : list (gmap string Cell) * option (gmap string Cell)) : Prop :=
  Forall consistent_record (fst st)
  /\ forall d, snd st = Some d -> consistent_record d.

(** A printed line that carries a timestamp. *)
Definition stamped (p : Printed) : Prop :=
  match p with
  | Out _ => False
  | _ => True
  end.

(** The record [d] holds the image outputs [b] and [flag]. *)
Definition holds_image (b : bool) (flag : string) (d : gmap string Cell) : Prop :=
  d !! "image_present_bool" = Some (CBool b)
  /\ d !! "image_present_flag" = Some (CStr flag).

(** A record of the state of the parser holds them. *)
Definition carries_image (b : bool) (flag : string)
    (st : list (gmap string Cell) * option (gmap string Cell)) : Prop :=
  (exists d, In d (fst st) /\ holds_image b flag d)
  \/ (exists d, snd st = Some d /\ holds_image b flag d).

(** The documents of a folder for which [process_pdf] returns no record. *)
Definition failed_documents (pdf_files : list string) : nat :=
  length (List.filter
            (fun pdf_path =>
               match fst (process_pdf pdf_path) with Some _ => false | None => true end)
            pdf_files).

(** The shape of a record of the parser: it names its file, its keys are
    "filename" and the targets of [key_map], the cell of
    "image_present_bool" is a boolean and every other cell a string. *)
Definition well_formed_record (d : gmap string Cell) : Prop :=
  (exists name, d !! "filename" = Some (CStr name))
  /\ forall k c,
       d !! k = Some c ->
       (k = "filename" \/ In k (map snd key_map))
       /\ match c with
          | CBool _ => k = "image_present_bool"
          | CStr _ => k <> "image_present_bool"
          end.

Definition well_formed_state (st : list (gmap string Cell) * option (gmap string Cell))
  : Prop :=
  Forall well_formed_record (fst st)
  /\ forall d, snd st = Some d -> well_formed_record d.

(** The file name that a line announces, when the parser takes the line for
    the header of a document. *)
Definition header_name (line : string) : option string :=
  if str_contains "Extraction results for" line then search_results_for line else None.

(** The file name of a record. *)
Definition record_name (d : gmap string Cell) : string :=
  match d !! "filename" with
  | Some (CStr name) => name
  | _ => ""
  end.

(** The file names of the records of a state of the parser, the open one
    last. *)
Definition state_names (st : list (gmap string Cell) * option (gmap string Cell))
  : list string :=
  map record_name (fst st)
  ++ match snd st with Some d => [record_name d] | None => [] end.

(** The texts of a record that stand after a key in the block of results
    do not hold the phrase by which the parser knows a header. *)
Definition header_free (res : ExtractionResult) : Prop :=
  Forall (fun text => str_contains "Extraction results for" text = false)
    [ doc_num res; corner_of_section res; township res; range res; county res;
      options_text (township_options res); options_text (range_options res);
      options_text (county_options res) ].

(** The record that the parser is to read from the block of [res]: the
    values stripped, the options stripped and normalized. *)
Definition parsed_record (res : ExtractionResult) : gmap string Cell :=
  <["county_options" := CStr (normalize_options (strip (options_text (county_options res))))]>
  (<["range_options" := CStr (normalize_options (strip (options_text (range_options res))))]>
  (<["township_options" :=
       CStr (normalize_options (strip (options_text (township_options res))))]>
  (<["image_present_flag" := CStr (image_present_flag res)]>
  (<["image_present_bool" := CBool (image_present_bool res)]>
  (<["county" := CStr (strip (county res))]>
  (<["range" := CStr (strip (range res))]>
  (<["township" := CStr (strip (township res))]>
  (<["corner_of_section" := CStr (strip (corner_of_section res))]>
  (<["doc_num" := CStr (strip (doc_num res))]>
  {[ "filename" := CStr (filename res) ]}))))))))).

(** ** Facts about the Python operations *)

Lemma bind_Return {A B : Type} (m : exc A) (k : A -> exc B) (b : B) :
  (m ≫= k) = Return b <-> exists a, m = Return a /\ k a = Return b.
Proof.
  destruct m as [a|e]; simpl; split.
  - intros H. exists a. auto.
  - intros (a' & Ha & Hk). congruence.
  - discriminate.
  - intros (a' & Ha & _). discriminate.
Qed.

Lemma dict_get_some (d : list (string * Value)) (k : string) (v : Value) :
  dict_get d k = v -> v <> PyNone -> dict_lookup k d = Some v.
Proof.
  unfold dict_get. destruct (dict_lookup k d); intros; congruence.
Qed.

(** A value that answers [get] with something other than [None] is a
    dictionary that is not empty, hence true. *)
Lemma py_get_truthy (x : Value) (k : string) (v : Value) :
  py_get x k = Return v -> v <> PyNone -> py_truthy x = true.
Proof.
  destruct x; simpl; try discriminate; intros [= H] Hv;
    apply dict_get_some in H; auto; destruct entries; auto; discriminate.
Qed.

Lemma py_get_contains (x : Value) (k : string) (v : Value) :
  py_get x k = Return v -> v <> PyNone -> py_contains k x = Return true.
Proof.
  destruct x; simpl; try discriminate; intros [= H] Hv;
    apply dict_get_some in H; auto; rewrite H; reflexivity.
Qed.

Lemma py_get_getitem (reader : PdfReader) (x : Value) (k : string) (v : Value) :
  py_get x k = Return v -> v <> PyNone -> py_getitem reader x k = get_object reader v.
Proof.
  destruct x; simpl; try discriminate; intros [= H] Hv;
    apply dict_get_some in H; auto; rewrite H; reflexivity.
Qed.

Lemma get_object_not_none (reader : PdfReader) (x y : Value) :
  get_object reader x = Return y -> x <> PyNone.
Proof. destruct x; simpl; congruence. Qed.

Lemma follow_not_indirect (t : list (nat * Value)) (fuel n : nat) (v : Value) :
  follow t fuel n = Return v -> is_indirect v = false.
Proof.
  revert n. induction fuel as [|fuel IH]; intros n; simpl;
    destruct (table_lookup n t) as [v'|]; try destruct v'; intros H;
    try discriminate; try (injection H as <-; reflexivity).
  eapply IH; eauto.
Qed.

(** [get_object] never answers with a reference. *)
Lemma get_object_not_indirect (reader : PdfReader) (x y : Value) :
  get_object reader x = Return y -> is_indirect y = false.
Proof.
  destruct x; simpl; try (intros [= <-]; reflexivity); try discriminate.
  apply follow_not_indirect.
Qed.

(** Asking an object that is not a reference for itself. *)
Lemma get_object_direct (reader : PdfReader) (x : Value) :
  is_indirect x = false -> x <> PyNone -> get_object reader x = Return x.
Proof. destruct x; simpl; congruence. Qed.

(** ** The image detector *)

Lemma xobject_is_image_true (reader : PdfReader) (xobj : Value) :
  xobject_is_image reader xobj = true
  <-> exists target subtype,
        get_object reader xobj = Return target
        /\ py_get target "/Subtype" = Return subtype
        /\ py_eq_str subtype "/Image" = true.
Proof.
  unfold xobject_is_image. split.
  - destruct (get_object reader xobj) as [target|e]; simpl; [|discriminate].
    destruct (py_get target "/Subtype") as [subtype|e] eqn:Hs; simpl; [|discriminate].
    intros H. exists target, subtype. repeat split; auto.
  - intros (target & subtype & -> & H2 & H3). simpl. rewrite H2. simpl. exact H3.
Qed.

(** The second [get_object] on the normal appearance changes nothing:
    [ap["/N"]] is resolved already. *)
Lemma apn_obj_is_apn (reader : PdfReader) (ap apn : Value) :
  py_getitem reader ap "/N" = Return apn ->
  try_except (get_object reader apn) (fun _ => apn) = apn.
Proof.
  intros H.
  assert (Hi : is_indirect apn = false).
  { destruct ap; simpl in H; try discriminate;
      destruct (dict_lookup "/N" entries); try discriminate;
      eapply get_object_not_indirect; eauto. }
  destruct apn; simpl in *; try reflexivity. discriminate.
Qed.

Lemma is_decoded_stream_true (x : Value) :
  is_decoded_stream x = true <-> exists entries, x = StreamObject DecodedStreamObject entries.
Proof.
  split.
  - destruct x; try discriminate. destruct c; try discriminate. eauto.
  - intros [entries ->]. reflexivity.
Qed.

Lemma item_values_truthy (x xobj : Value) :
  In xobj (item_values x) -> py_truthy x = true.
Proof.
  destruct x as [| | | | | |l|d|c d|]; simpl; intros H;
    try contradiction; try (destruct l; [contradiction|reflexivity]);
    (destruct d; [contradiction|reflexivity]).
Qed.

(** When the scan of the normal appearance finds an image. *)
Lemma scan_appearance_true (reader : PdfReader) (ap : Value) :
  scan_appearance reader ap = Return true
  <-> exists entries xo container xobj,
        py_getitem reader ap "/N" = Return (StreamObject DecodedStreamObject entries)
        /\ py_get (dict_get entries "/Resources") "/XObject" = Return xo
        /\ get_object reader xo = Return container
        /\ has_items array_has_items container = true
        /\ In xobj (item_values container)
        /\ xobject_is_image reader xobj = true.
Proof.
  unfold scan_appearance. split.
  - destruct (py_getitem reader ap "/N") as [apn|e] eqn:Hn; simpl; [|discriminate].
    rewrite (apn_obj_is_apn _ _ _ Hn).
    destruct (is_decoded_stream apn) eqn:Hd; [|discriminate].
    apply is_decoded_stream_true in Hd as [entries ->]. simpl.
    destruct (py_truthy (dict_get entries "/Resources")) eqn:Hr; [|discriminate].
    destruct (py_get (dict_get entries "/Resources") "/XObject") as [xo|e] eqn:Hx;
      simpl; [|discriminate].
    destruct (is_indirect xo) eqn:Hi.
    + destruct (get_object reader xo) as [container|e] eqn:Hc; simpl; [|discriminate].
      destruct (py_truthy container && has_items array_has_items container) eqn:Ht;
        [|discriminate].
      apply andb_true_iff in Ht as [_ Hh]. intros [= Hex].
      apply existsb_exists in Hex as (xobj & Hin & Himg).
      exists entries, xo, container, xobj. auto 10.
    + simpl.
      destruct (py_truthy xo && has_items array_has_items xo) eqn:Ht; [|discriminate].
      apply andb_true_iff in Ht as [Htr Hh]. intros [= Hex].
      apply existsb_exists in Hex as (xobj & Hin & Himg).
      exists entries, xo, xo, xobj. repeat split; auto.
      apply get_object_direct; auto. intros ->. discriminate.
  - intros (entries & xo & container & xobj & -> & Hx & Hc & Hh & Hin & Himg).
    simpl.
    assert (Hxo : xo <> PyNone) by (eapply get_object_not_none; eauto).
    rewrite (py_get_truthy _ _ _ Hx Hxo). rewrite Hx. simpl.
    assert (Hex : existsb (xobject_is_image reader) (item_values container) = true)
      by (apply existsb_exists; eauto).
    destruct (is_indirect xo) eqn:Hi.
    + rewrite Hc. simpl. rewrite (item_values_truthy _ _ Hin), Hh. simpl. congruence.
    + rewrite (get_object_direct _ _ Hi Hxo) in Hc. injection Hc as <-. simpl.
      rewrite (item_values_truthy _ _ Hin), Hh. simpl. congruence.
Qed.

Lemma is_button_truthy (obj : Value) : is_button obj -> py_truthy obj = true.
Proof.
  intros (ft & Hft & Heq). eapply py_get_truthy; eauto.
  intros ->. discriminate.
Qed.

(** The result of the detector is that of its [try] block. *)
Lemma detect_image_fst (reader : PdfReader) (field_name : string) (b : bool) :
  detect_image_body reader field_name = Return b ->
  detect_image_in_button reader field_name = (b, []).
Proof. unfold detect_image_in_button. intros ->. reflexivity. Qed.

Lemma detect_image_true (reader : PdfReader) (field_name : string) :
  fst (detect_image_in_button reader field_name) = true
  <-> detect_image_body reader field_name = Return true.
Proof.
  unfold detect_image_in_button.
  destruct (detect_image_body reader field_name) as [[]|e]; simpl;
    split; congruence.
Qed.

(** The steps of the detector that follow the icon check, for a Button
    field without icon. *)
Lemma detect_image_body_no_icon (reader : PdfReader) (field_name : string) (obj : Value) :
  find_field_obj reader field_name = Return obj ->
  is_button obj ->
  no_icon obj ->
  detect_image_body reader field_name = Return true
  <-> exists ap, py_get obj "/AP" = Return ap
                 /\ py_truthy ap = true
                 /\ py_contains "/N" ap = Return true
                 /\ scan_appearance reader ap = Return true.
Proof.
  intros Hfind Hbtn (mk & Hmk & Hicon).
  pose proof (is_button_truthy _ Hbtn) as Htr.
  destruct Hbtn as (ft & Hft & Hbtn).
  unfold detect_image_body. rewrite Hfind. simpl. rewrite Htr. simpl.
  rewrite Hft. simpl. rewrite Hbtn. simpl. rewrite Hmk. simpl.
  assert (Hstep : (if py_truthy mk
                   then i ← py_get mk "/I"; Return (negb (is_none i))
                   else Return false) = Return false).
  { destruct Hicon as [-> | Hi]; [reflexivity|].
    rewrite Hi. simpl. destruct (py_truthy mk); reflexivity. }
  rewrite Hstep. simpl. clear Hstep.
  assert (Htail : forall (m1 : exc Value) (k : Value -> exc Value),
             (m1 ≫= (fun names => k names ≫= (fun _ => Return false)))
             <> Return true).
  { intros m1 k. destruct m1 as [names|e]; simpl; [|discriminate].
    destruct (k names); simpl; discriminate. }
  destruct (py_get obj "/AP") as [ap|e] eqn:Hap; simpl.
  - destruct (py_truthy ap) eqn:Hapt.
    + destruct (py_contains "/N" ap) as [[]|e] eqn:Hc; simpl.
      * destruct (scan_appearance reader ap) as [[]|e] eqn:Hs; simpl.
        -- split; [|reflexivity]. intros _. exists ap. auto.
        -- split.
           ++ intros H. exfalso. exact (Htail _ _ H).
           ++ intros (ap' & [= <-] & _ & _ & Hs'). congruence.
        -- split; [discriminate|]. intros (ap' & [= <-] & _ & _ & Hs'). congruence.
      * split.
        -- intros H. exfalso. exact (Htail _ _ H).
        -- intros (ap' & [= <-] & _ & Hc' & _). congruence.
      * split; [discriminate|]. intros (ap' & [= <-] & _ & Hc' & _). congruence.
    + split.
      * intros H. exfalso. exact (Htail _ _ H).
      * intros (ap' & [= <-] & Ht' & _). congruence.
  - split; [discriminate|]. intros (ap' & [=] & _).
Qed.

Lemma py_getitem_inv (reader : PdfReader) (x : Value) (k : string) (v : Value) :
  py_getitem reader x k = Return v ->
  exists n, py_get x k = Return n /\ get_object reader n = Return v.
Proof.
  destruct x; simpl; try discriminate;
    destruct (dict_lookup k entries) as [n|] eqn:Hl; try discriminate;
    intros H; exists n; unfold dict_get; rewrite Hl; auto.
Qed.

(** The scan finds an image exactly when the words of the specification
    hold of an unfiltered normal appearance. *)
Lemma scan_appearance_spec (reader : PdfReader) (obj : Value) :
  (exists ap, py_get obj "/AP" = Return ap
              /\ py_truthy ap = true
              /\ py_contains "/N" ap = Return true
              /\ scan_appearance reader ap = Return true)
  <-> appearance_image reader obj DecodedStreamObject.
Proof.
  split.
  - intros (ap & Hap & _ & _ & Hs).
    apply scan_appearance_true in Hs
      as (entries & xo & container & xobj & Hn & Hx & Hc & Hh & Hin & Himg).
    apply py_getitem_inv in Hn as (n & Hn & Hstream).
    apply xobject_is_image_true in Himg as (target & subtype & Ht & Hst & Heq).
    exists ap, n, entries, (dict_get entries "/Resources"), xo, container, xobj,
      target, subtype.
    repeat split; assumption.
  - intros (ap & n & entries & resources & xo & container & xobj & target & subtype
            & Hap & Hn & Hstream & <- & Hx & Hc & Hh & Hin & Ht & Hst & Heq).
    assert (Hnn : n <> PyNone) by (eapply get_object_not_none; eauto).
    exists ap. repeat split.
    + assumption.
    + eapply py_get_truthy; eauto.
    + eapply py_get_contains; eauto.
    + apply scan_appearance_true.
      exists entries, xo, container, xobj. repeat split; auto.
      * rewrite (py_get_getitem _ _ _ _ Hn Hnn). assumption.
      * apply xobject_is_image_true. eauto.
Qed.

(** For a Button field found by the locator and without icon entry,
    the detector answers true exactly when the normal
    appearance resolves to an unfiltered stream (a [DecodedStreamObject])
    and an entry of the XObject dictionary of its resources resolves to a
    dictionary whose subtype is Image.  In particular the answer is false
    when the normal appearance resolves to a dictionary of named
    appearances, and when it resolves to a filtered stream. *)
Theorem appearance_scan_decides (reader : PdfReader) (field_name : string) (obj : Value) :
  find_field_obj reader field_name = Return obj ->
  is_button obj ->
  no_icon obj ->
  (fst (detect_image_in_button reader field_name) = true
   <-> appearance_image reader obj DecodedStreamObject)
  /\ (forall ap n sub,
        py_get obj "/AP" = Return ap ->
        py_get ap "/N" = Return n ->
        (get_object reader n = Return (DictionaryObject sub)
         \/ get_object reader n = Return (StreamObject EncodedStreamObject sub)) ->
        fst (detect_image_in_button reader field_name) = false).
Proof.
  intros Hfind Hbtn Hicon.
  assert (Hiff : fst (detect_image_in_button reader field_name) = true
                 <-> appearance_image reader obj DecodedStreamObject).
  { rewrite detect_image_true.
    rewrite (detect_image_body_no_icon _ _ _ Hfind Hbtn Hicon).
    apply scan_appearance_spec. }
  split; [exact Hiff|].
  intros ap n sub Hap Hn Hsub.
  apply not_true_is_false. intros Htrue. apply Hiff in Htrue.
  destruct Htrue as (ap' & n' & entries & _ & _ & _ & _ & _ & _
                     & Hap' & Hn' & Hstream & _).
  rewrite Hap in Hap'. injection Hap' as <-.
  rewrite Hn in Hn'. injection Hn' as <-.
  rewrite Hstream in Hsub. destruct Hsub; discriminate.
Qed.

(** For a Button field found by the locator, the detector answers true
    as soon as the field's [/MK] dictionary holds an [/I] entry,
    whatever the field's appearance is: nothing is asked of [/AP], and
    the value stored under [/I] is not read. *)
Theorem icon_entry_suffices (reader : PdfReader) (field_name : string) (obj : Value) :
  find_field_obj reader field_name = Return obj ->
  is_button obj ->
  has_icon obj ->
  detect_image_in_button reader field_name = (true, []).
Proof.
  intros Hfind Hbtn (mk & i & Hmk & Hi & Hnn).
  apply detect_image_fst.
  pose proof (is_button_truthy _ Hbtn) as Htr.
  destruct Hbtn as (ft & Hft & Hbtn).
  unfold detect_image_body. rewrite Hfind. simpl. rewrite Htr. simpl.
  rewrite Hft. simpl. rewrite Hbtn. simpl. rewrite Hmk. simpl.
  rewrite (py_get_truthy _ _ _ Hi Hnn). rewrite Hi. simpl.
  destruct i; try reflexivity. congruence.
Qed.


(** A reference has no [get]: when the trailer refers to the catalog, the
    locator raises for every name, so that no option is read and no image
    is detected, each time with a warning. *)
Theorem referenced_catalog_stops_locator (reader : PdfReader) (n : nat)
    (field_name : string) :
  dict_lookup "/Root" (trailer reader) = Some (IndirectObject n) ->
  find_field_obj reader field_name = Raise AttributeError
  /\ get_choice_options reader field_name
     = ([], [WARN_options field_name AttributeError])
  /\ detect_image_in_button reader field_name
     = (false, [WARN_image field_name AttributeError]).
Proof.
  intros Hroot.
  assert (Hfind : find_field_obj reader field_name = Raise AttributeError).
  { unfold find_field_obj, dict_get. rewrite Hroot. reflexivity. }
  split; [exact Hfind|]. split.
  - unfold get_choice_options, get_choice_options_body. rewrite Hfind. reflexivity.
  - unfold detect_image_in_button, detect_image_body. rewrite Hfind. reflexivity.
Qed.

(** ** The readers of values and options *)




Lemma get_choice_options_return (reader : PdfReader) (field_name : string)
    (options : list string) :
  get_choice_options_body reader field_name = Return options ->
  get_choice_options reader field_name = (options, []).
Proof. unfold get_choice_options. intros ->. reflexivity. Qed.

Lemma option_text_stored (item : Value) (s : string) :
  stored_option item s -> option_text item = s.
Proof. intros []; reflexivity. Qed.

Lemma map_option_text_stored (items : list Value) (options : list string) :
  Forall2 stored_option items options -> map option_text items = options.
Proof.
  induction 1 as [|item s items options Hs _ IH]; simpl.
  - reflexivity.
  - rewrite (option_text_stored _ _ Hs), IH. reflexivity.
Qed.

(** For a field found by the locator whose [/Opt] is an array of bare
    strings and of [export, display] pairs, the options read are the exported
    texts of the entries, one per entry and in the stored order; when the
    locator finds no field, when the field has no [/Opt], and when an
    exception is raised anywhere, the result is the empty list (with a
    warning in the last case). *)
Theorem get_choice_options_stored_order (reader : PdfReader) (field_name : string) :
  (forall obj items options,
      find_field_obj reader field_name = Return obj ->
      py_get obj "/Opt" = Return (ArrayObject items) ->
      Forall2 stored_option items options ->
      get_choice_options reader field_name = (options, []))
  /\ (find_field_obj reader field_name = Return PyNone ->
      get_choice_options reader field_name = ([], []))
  /\ (forall obj,
      find_field_obj reader field_name = Return obj ->
      py_get obj "/Opt" = Return PyNone ->
      get_choice_options reader field_name = ([], []))
  /\ (forall e,
      get_choice_options_body reader field_name = Raise e ->
      get_choice_options reader field_name = ([], [WARN_options field_name e])).
Proof.
  repeat split.
  - intros obj items options Hfind Hopt Hst.
    apply get_choice_options_return. unfold get_choice_options_body.
    rewrite Hfind. simpl.
    assert (Htr : py_truthy obj = true)
      by (eapply py_get_truthy; [exact Hopt | discriminate]).
    rewrite Htr. simpl. rewrite Hopt. simpl.
    pose proof (map_option_text_stored _ _ Hst) as Hm.
    destruct items as [|item items]; simpl in *; congruence.
  - intros Hfind. apply get_choice_options_return. unfold get_choice_options_body.
    rewrite Hfind. reflexivity.
  - intros obj Hfind Hopt. apply get_choice_options_return.
    unfold get_choice_options_body. rewrite Hfind. simpl.
    destruct (py_truthy obj); simpl; [|reflexivity].
    rewrite Hopt. reflexivity.
  - intros e He. unfold get_choice_options. rewrite He. reflexivity.
Qed.



(** ** Documents without form *)

(** For a document whose catalog has no [/AcroForm],
    [get_fields_dict] raises nothing and returns what PyPDF2's [get_fields]
    returns there, which is [None] and not an empty mapping; the empty
    mapping is what the fallback returns for a trailer without [/Root].  On
    either result every [get_value] returns the empty string and raises
    nothing; on [None] each read prints a warning. *)
Theorem formless_document_reads (reader : PdfReader) :
  (no_form reader ->
   get_fields_dict reader = Return None
   /\ forall field_name,
        get_value None field_name = ("", [WARN_value field_name AttributeError]))
  /\ (dict_lookup "/Root" (trailer reader) = None ->
      get_fields_dict reader = Return (Some ∅)
      /\ forall field_name, get_value (Some ∅) field_name = ("", [])).
Proof.
  split.
  - intros (catalog & Hroot & Hform). split; [|reflexivity].
    unfold get_fields_dict, get_fields. rewrite Hroot. simpl. rewrite Hform. reflexivity.
  - intros Hroot. split; [|reflexivity].
    unfold get_fields_dict, get_fields, fields_fallback, dict_get. simpl.
    rewrite Hroot. reflexivity.
Qed.

(** ** One document, and the batch *)

Lemma process_pdf_result (pdf_path : string) :
  fst (process_pdf pdf_path)
  = match load_reader pdf_path with
    | Return reader =>
        match get_fields_dict reader with
        | Return fields => Some (fst (extract pdf_path reader fields))
        | Raise _ => None
        end
    | Raise _ => None
    end.
Proof.
  unfold process_pdf.
  destruct (load_reader pdf_path) as [reader|e]; simpl; [|reflexivity].
  destruct (get_fields_dict reader) as [fields|e]; simpl; [|reflexivity].
  destruct (extract pdf_path reader fields). reflexivity.
Qed.

Lemma process_pdf_failure_printed (pdf_path : string) :
  fst (process_pdf pdf_path) = None ->
  exists e, snd (process_pdf pdf_path)
            = [INFO_processing pdf_path; ERROR_extraction pdf_path e].
Proof.
  unfold process_pdf.
  destruct (load_reader pdf_path) as [reader|e]; simpl; [|eauto].
  destruct (get_fields_dict reader) as [fields|e]; simpl; [|eauto].
  destruct (extract pdf_path reader fields). discriminate.
Qed.

(** The records of a batch are those of its documents, in their order. *)
Lemma process_files_results (pdf_files : list string) :
  fst (process_files pdf_files) = omap (fun pdf_path => fst (process_pdf pdf_path)) pdf_files.
Proof.
  induction pdf_files as [|pdf_path rest IH]; [reflexivity|].
  change (omap (fun p => fst (process_pdf p)) (pdf_path :: rest))
    with (match fst (process_pdf pdf_path) with
          | Some res => res :: omap (fun p => fst (process_pdf p)) rest
          | None => omap (fun p => fst (process_pdf p)) rest
          end).
  rewrite <- IH. simpl.
  destruct (process_pdf pdf_path) as [result p1].
  destruct (process_files rest) as [results p2]. reflexivity.
Qed.

(** [process_pdf] ends without record exactly when the document cannot
    be opened or its field index cannot be built: nothing that happens in
    [get_value], [get_choice_options] or [detect_image_in_button] takes the
    record away.  The failure is printed, the document adds no record to
    the batch, and the records of the documents before and after it are
    those they have on their own: the records of a batch are those that
    [process_pdf] returns for its documents, in their order;
    [process_batch] counts the documents and the records. *)
Theorem document_failure_contained (pdf_path : string) :
  (fst (process_pdf pdf_path) = None
   <-> (exists e, load_reader pdf_path = Raise e)
       \/ (exists reader e, load_reader pdf_path = Return reader
                            /\ get_fields_dict reader = Raise e))
  /\ (fst (process_pdf pdf_path) = None ->
      (exists e, snd (process_pdf pdf_path)
                 = [INFO_processing pdf_path; ERROR_extraction pdf_path e])
      /\ forall before after,
           fst (process_files (before ++ pdf_path :: after))
           = fst (process_files before) ++ fst (process_files after))
  /\ (forall reader fields,
        load_reader pdf_path = Return reader ->
        get_fields_dict reader = Return fields ->
        fst (process_pdf pdf_path) = Some (fst (extract pdf_path reader fields)))
  /\ (forall folder_path cycle_number pdf_files,
        glob_pdfs folder_path = Some pdf_files ->
        fst (process_batch folder_path cycle_number)
        = (length pdf_files, length (fst (process_files pdf_files))))
  /\ (forall pdf_files,
        fst (process_files pdf_files)
        = omap (fun pdf_path => fst (process_pdf pdf_path)) pdf_files).
Proof.
  split; [|split; [|split; [|split]]].
  - rewrite process_pdf_result.
    destruct (load_reader pdf_path) as [reader|e] eqn:Hl; [|split; eauto].
    destruct (get_fields_dict reader) as [fields|e] eqn:Hf.
    + split; [discriminate|]. intros [[e He]|(r & e & Hr & He)]; [discriminate|].
      injection Hr as <-. congruence.
    + split; eauto.
  - intros Hnone. split; [apply process_pdf_failure_printed; exact Hnone|].
    intros before after. rewrite !process_files_results.
    rewrite omap_app. simpl. rewrite Hnone. reflexivity.
  - intros reader fields Hr Hf. rewrite process_pdf_result, Hr, Hf. reflexivity.
  - intros folder_path cycle_number pdf_files Hglob. unfold process_batch.
    rewrite Hglob. destruct pdf_files as [|pdf_path' rest]; [reflexivity|].
    destruct (process_files (pdf_path' :: rest)). reflexivity.
  - apply process_files_results.
Qed.

(** ** Fields that share a name *)






(** ** The option list, printed and parsed again *)

Lemma replace_comma_space_other (c : ascii) (s : string) :
  c <> ","%char ->
  replace_comma_space (String c s) = String c (replace_comma_space s).
Proof.
  intros Hc. destruct c as [[] [] [] [] [] [] [] []]; try reflexivity.
  congruence.
Qed.

Lemma has_char_cons (c a : ascii) (s : string) :
  has_char c (String a s) = false -> a <> c /\ has_char c s = false.
Proof.
  simpl. intros H. apply orb_false_iff in H as [Ha Hs].
  split; [apply Ascii.eqb_neq; exact Ha | exact Hs].
Qed.

Lemma replace_comma_space_free (x : string) :
  has_char "," x = false -> replace_comma_space x = x.
Proof.
  induction x as [|c x IH]; [reflexivity|].
  intros H. apply has_char_cons in H as [Hc Hx].
  rewrite replace_comma_space_other by exact Hc. rewrite IH by exact Hx. reflexivity.
Qed.

Lemma append_cons (c : ascii) (x s : string) :
  String c x +:+ s = String c (x +:+ s).
Proof. reflexivity. Qed.

Lemma replace_comma_space_app (x s : string) :
  has_char "," x = false ->
  replace_comma_space (x +:+ ", " +:+ s) = x +:+ "," +:+ replace_comma_space s.
Proof.
  induction x as [|c x IH]; [reflexivity|].
  intros H. apply has_char_cons in H as [Hc Hx]. rewrite !(append_cons c x).
  rewrite replace_comma_space_other by exact Hc. rewrite IH by exact Hx. reflexivity.
Qed.

Lemma replace_comma_space_join (options : list string) :
  Forall (fun x => has_char "," x = false) options ->
  replace_comma_space (join ", " options) = join "," options.
Proof.
  induction 1 as [|x rest Hx Hrest IH]; [reflexivity|].
  destruct rest as [|y rest].
  - simpl. apply replace_comma_space_free. exact Hx.
  - change (join ", " (x :: y :: rest)) with (x +:+ ", " +:+ join ", " (y :: rest)).
    change (join "," (x :: y :: rest)) with (x +:+ "," +:+ join "," (y :: rest)).
    rewrite replace_comma_space_app by exact Hx. rewrite IH. reflexivity.
Qed.

Lemma split_on_free (c : ascii) (x : string) :
  has_char c x = false -> split_on c x = [x].
Proof.
  induction x as [|a x IH]; [reflexivity|].
  intros H. apply has_char_cons in H as [Ha Hx]. simpl.
  apply Ascii.eqb_neq in Ha. rewrite Ha, (IH Hx). reflexivity.
Qed.

Lemma split_on_app (c : ascii) (x s : string) :
  has_char c x = false ->
  split_on c (x +:+ String c s) = x :: split_on c s.
Proof.
  induction x as [|a x IH].
  - intros _. simpl. rewrite Ascii.eqb_refl. reflexivity.
  - intros H. apply has_char_cons in H as [Ha Hx]. simpl.
    apply Ascii.eqb_neq in Ha. rewrite Ha, (IH Hx). reflexivity.
Qed.

Lemma split_on_join (options : list string) :
  options <> [] ->
  Forall (fun x => has_char "," x = false) options ->
  split_on "," (join "," options) = options.
Proof.
  intros Hne Hall. induction Hall as [|x rest Hx Hrest IH]; [congruence|].
  destruct rest as [|y rest].
  - simpl. apply split_on_free. exact Hx.
  - change (join "," (x :: y :: rest)) with (x +:+ String "," (join "," (y :: rest))).
    rewrite split_on_app by exact Hx. rewrite IH by discriminate. reflexivity.
Qed.

(** What the parser stores for the printed text of a plain option list,
    split at the commas, is the list. *)
Lemma normalized_options_split (options : list string) :
  plain_options options ->
  split_on "," (normalize_options (strip (options_text options))) = options.
Proof.
  intros (Hne & Hfree & Hstrip & Hword).
  assert (Htext : options_text options = join ", " options)
    by (destruct options; [congruence | reflexivity]).
  rewrite Htext, Hstrip. unfold normalize_options.
  destruct (String.eqb_spec (join ", " options) "None") as [|_]; [congruence|].
  destruct (String.eqb_spec (join ", " options) "") as [Hempty|_]; cbn [orb].
  - assert (Hj : join "," options = "")
      by (rewrite <- (replace_comma_space_join _ Hfree), Hempty; reflexivity).
    rewrite <- Hj at 1. apply split_on_join; assumption.
  - rewrite (replace_comma_space_join _ Hfree). apply split_on_join; assumption.
Qed.

(** ** Lines and white space *)

Lemma str_contains_colon (line : string) :
  str_contains ":" line = has_char ":" line.
Proof.
  induction line as [|c line IH]; [reflexivity|].
  change (str_contains ":" (String c line))
    with (if (if ascii_dec ":" c then String.prefix "" line else false) then true
          else str_contains ":" line).
  change (has_char ":" (String c line)) with (Ascii.eqb c ":" || has_char ":" line).
  destruct (ascii_dec ":" c) as [<-|Hne]; [destruct line; reflexivity|].
  rewrite IH. destruct (Ascii.eqb_spec c ":") as [->|_]; [congruence | reflexivity].
Qed.

Lemma split_on_not_nil (c : ascii) (s : string) : split_on c s <> [].
Proof.
  destruct s as [|a s]; simpl; [discriminate|].
  destruct (Ascii.eqb a c); [discriminate|].
  destruct (split_on c s); discriminate.
Qed.

Lemma split_on_empty_line (c : ascii) (s : string) : split_on c s = [""] -> s = "".
Proof.
  destruct s as [|a s]; [reflexivity|]. simpl.
  destruct (Ascii.eqb a c).
  - intros [= H]. destruct (split_on_not_nil _ _ H).
  - destruct (split_on c s); discriminate.
Qed.

Lemma rstrip_cons (c : ascii) (s : string) :
  rstrip (String c s)
  = if is_space c && String.eqb (rstrip s) "" then "" else String c (rstrip s).
Proof. reflexivity. Qed.

Lemma rstrip_cons_empty (c : ascii) (s : string) :
  rstrip (String c s) = "" -> is_space c = true /\ rstrip s = "".
Proof.
  rewrite rstrip_cons. destruct (is_space c); simpl; [|discriminate].
  destruct (String.eqb_spec (rstrip s) ""); [auto | discriminate].
Qed.

(** A text that is white space only has blank lines only. *)
Lemma rstrip_empty_lines (text : string) :
  rstrip text = "" -> Forall (fun l => rstrip l = "") (split_on "010" text).
Proof.
  induction text as [|c text IH]; intros H.
  - repeat constructor.
  - apply rstrip_cons_empty in H as [Hc Ht]. specialize (IH Ht). simpl.
    destruct (Ascii.eqb c "010").
    + constructor; [reflexivity | exact IH].
    + destruct (split_on "010" text) as [|l ls] eqn:Hs;
        [destruct (split_on_not_nil _ _ Hs)|].
      inversion IH as [|? ? Hl Hls]; subst. constructor; [|exact Hls].
      rewrite rstrip_cons, Hc, Hl. reflexivity.
Qed.

(** The lines of a text stripped at its end. *)
Lemma rstripped_split (text : string) :
  rstripped (split_on "010" text) (split_on "010" (rstrip text)).
Proof.
  induction text as [|c text IH].
  - simpl. apply (rstripped_last "" []). constructor.
  - rewrite rstrip_cons.
    destruct (is_space c && String.eqb (rstrip text) "") eqn:Hblank.
    + apply andb_true_iff in Hblank as [Hc Ht]. apply String.eqb_eq in Ht.
      pose proof (rstrip_empty_lines _ Ht) as Hall. simpl.
      destruct (Ascii.eqb c "010").
      * apply (rstripped_last "" _). exact Hall.
      * destruct (split_on "010" text) as [|l ls] eqn:Hs;
          [destruct (split_on_not_nil _ _ Hs)|].
        inversion Hall as [|? ? Hl Hls]; subst.
        replace [""] with [rstrip (String c l)]
          by (rewrite rstrip_cons, Hc, Hl; reflexivity).
        apply rstripped_last. exact Hls.
    + simpl. destruct (Ascii.eqb c "010") eqn:Hnl.
      * apply rstripped_cons. exact IH.
      * destruct (split_on "010" text) as [|l ls] eqn:Hs;
          [destruct (split_on_not_nil _ _ Hs)|].
        destruct (split_on "010" (rstrip text)) as [|l' ls'] eqn:Hs';
          [destruct (split_on_not_nil _ _ Hs')|].
        inversion IH as [? ? Hall|? ? ? Hrest]; subst.
        -- replace (String c (rstrip l)) with (rstrip (String c l)).
           ++ apply rstripped_last. exact Hall.
           ++ rewrite rstrip_cons.
              destruct (is_space c) eqn:Hc; [|reflexivity]. simpl in Hblank |- *.
              destruct (String.eqb_spec (rstrip l) "") as [Hl|]; [|reflexivity].
              rewrite Hl in Hs'. apply split_on_empty_line in Hs'.
              rewrite Hs' in Hblank. discriminate.
        -- apply rstripped_cons. exact Hrest.
Qed.

Lemma rstrip_has_char (c : ascii) (s : string) :
  has_char c s = false -> has_char c (rstrip s) = false.
Proof.
  induction s as [|a s IH]; [reflexivity|].
  intros H. simpl in H. apply orb_false_iff in H as [Ha Hs].
  rewrite rstrip_cons. destruct (is_space a && String.eqb (rstrip s) ""); [reflexivity|].
  simpl. rewrite Ha, (IH Hs). reflexivity.
Qed.

Lemma rstrip_keeps_colon (s : string) :
  has_char ":" s = true -> rstrip s <> "".
Proof.
  induction s as [|a s IH]; [discriminate|].
  simpl has_char. intros H Hr. apply rstrip_cons_empty in Hr as [Ha Hs].
  apply orb_true_iff in H as [H|H].
  - apply Ascii.eqb_eq in H. subst a. discriminate.
  - exact (IH H Hs).
Qed.

(** Stripping a line at its end leaves what is before its first colon. *)
Lemma split_once_rstrip (s : string) :
  has_char ":" s = true ->
  fst (split_once ":" (rstrip s)) = fst (split_once ":" s).
Proof.
  induction s as [|a s IH]; [discriminate|].
  intros H. rewrite rstrip_cons.
  destruct (Ascii.eqb a ":") eqn:Ha.
  - apply Ascii.eqb_eq in Ha. subst a. simpl. reflexivity.
  - simpl in H. rewrite Ha in H. simpl in H.
    pose proof (rstrip_keeps_colon _ H) as Hr.
    apply String.eqb_neq in Hr. rewrite Hr, andb_false_r.
    simpl. rewrite Ha. specialize (IH H).
    destruct (split_once ":" (rstrip s)), (split_once ":" s). simpl in *. congruence.
Qed.

Lemma safe_line_rstrip (line : string) : safe_line line -> safe_line (rstrip line).
Proof.
  intros Hsafe. destruct (has_char ":" line) eqn:Hc.
  - destruct Hsafe as [Hno|Hkey]; [congruence|].
    right. unfold key_of in *. rewrite (split_once_rstrip _ Hc). exact Hkey.
  - left. apply rstrip_has_char. exact Hc.
Qed.

Lemma bool_line_rstrip (b : bool) : rstrip (bool_line b) = bool_line b.
Proof. destruct b; reflexivity. Qed.

Lemma flag_line_rstrip (b : bool) : rstrip (flag_line b) = flag_line b.
Proof. destruct b; reflexivity. Qed.

Lemma paired_lines_rstripped (lines lines' : list string) :
  paired_lines lines -> rstripped lines lines' -> paired_lines lines'.
Proof.
  intros Hp. revert lines'.
  induction Hp as [|line rest Hsafe Hrest IH|b rest Hrest IH]; intros lines' Hr.
  - inversion Hr.
  - inversion Hr as [? ? Hall|? ? rest' Hr']; subst.
    + apply paired_safe; [apply safe_line_rstrip; exact Hsafe | constructor].
    + apply paired_safe; [exact Hsafe | apply IH; exact Hr'].
  - inversion Hr as [? ? Hall|? ? rest' Hr']; subst.
    + inversion Hall as [|? ? Hflag _]; subst.
      rewrite flag_line_rstrip in Hflag. destruct b; discriminate.
    + inversion Hr' as [? ? Hall|? ? rest'' Hr'']; subst.
      * rewrite flag_line_rstrip. apply paired_image. constructor.
      * apply paired_image. apply IH. exact Hr''.
Qed.

Lemma paired_lines_app (l1 l2 : list string) :
  paired_lines l1 -> paired_lines l2 -> paired_lines (l1 ++ l2).
Proof.
  induction 1 as [|line rest Hsafe Hrest IH|b rest Hrest IH]; intros H2; simpl.
  - exact H2.
  - apply paired_safe; auto.
  - apply paired_image; auto.
Qed.

(** ** The parser keeps its records consistent *)

Lemma consistent_record_fresh (name : string) :
  consistent_record {[ "filename" := CStr name ]}.
Proof.
  unfold consistent_record.
  rewrite !lookup_singleton_ne by discriminate. split; split; discriminate.
Qed.

Lemma consistent_record_insert (d : gmap string Cell) (mapped_key : string) (c : Cell) :
  mapped_key <> "image_present_bool" ->
  mapped_key <> "image_present_flag" ->
  consistent_record d ->
  consistent_record (<[mapped_key := c]> d).
Proof.
  intros Hb Hf Hd. unfold consistent_record.
  rewrite !lookup_insert_ne by assumption. exact Hd.
Qed.

Lemma consistent_record_image (d : gmap string Cell) (b : bool) :
  consistent_record
    (<["image_present_flag" := CStr (if b then "Y" else "N")]>
       (<["image_present_bool" := CBool b]> d)).
Proof.
  unfold consistent_record.
  rewrite !lookup_insert_eq, !lookup_insert_ne, !lookup_insert_eq by discriminate.
  destruct b; split; split; congruence.
Qed.

Lemma key_map_image (key mapped_key : string) :
  key_map_get key key_map = Some mapped_key ->
  key <> "Image present (bool)" ->
  key <> "Image present (Y/N)" ->
  mapped_key <> "image_present_bool" /\ mapped_key <> "image_present_flag".
Proof.
  unfold key_map. cbn [key_map_get]. intros H Hb Hf.
  repeat match type of H with
         | context [String.eqb ?k key] =>
             destruct (String.eqb_spec k key) as [Heq|_];
             [try (injection H as <-; split; discriminate); congruence|]
         end.
  discriminate.
Qed.

Lemma consistent_state_append (results : list (gmap string Cell))
    (current : option (gmap string Cell)) :
  consistent_state (results, current) ->
  Forall consistent_record (append_result results current).
Proof.
  intros [Hr Hc]. simpl in *. destruct current as [d|]; simpl; [|exact Hr].
  apply Forall_app. split; [exact Hr|]. constructor; [auto | constructor].
Qed.

(** A line that holds no image key leaves the state consistent. *)
Lemma parse_line_safe (st : list (gmap string Cell) * option (gmap string Cell))
    (line : string) :
  consistent_state st -> safe_line line -> consistent_state (parse_line st line).
Proof.
  destruct st as [results current]. intros Hst Hsafe.
  pose proof (consistent_state_append _ _ Hst) as Happ.
  destruct Hst as [Hr Hc]. simpl in Hr, Hc.
  unfold parse_line.
  destruct (str_contains "Extraction results for" line).
  - destruct (search_results_for line) as [name|]; [|split; assumption].
    split; simpl.
    + destruct (result_truthy current); assumption.
    + intros d [= <-]. apply consistent_record_fresh.
  - destruct (result_truthy current && str_contains ":" line) eqn:Hbranch.
    + apply andb_true_iff in Hbranch as [_ Hcolon].
      rewrite str_contains_colon in Hcolon.
      destruct Hsafe as [Hno|[Hkb Hkf]]; [congruence|].
      unfold key_of in Hkb, Hkf.
      destruct (split_once ":" line) as [before after]. simpl in Hkb, Hkf.
      destruct (key_map_get (strip before) key_map) as [mapped_key|] eqn:Hmap;
        [|split; assumption].
      destruct (key_map_image _ _ Hmap Hkb Hkf) as [Hmb Hmf].
      split; simpl; [exact Hr|].
      intros d' Hd'. destruct current as [d|]; simpl in Hd'; [|discriminate].
      injection Hd' as <-. apply consistent_record_insert; auto.
    + destruct (str_contains "---" line && result_truthy current).
      * split; simpl; [exact Happ | discriminate].
      * split; assumption.
Qed.

Lemma result_truthy_insert (d : gmap string Cell) (k : string) (c : Cell) :
  result_truthy (Some (<[k := c]> d)) = true.
Proof.
  simpl. apply negb_true_iff, bool_decide_eq_false. apply insert_non_empty.
Qed.

(** What the parser does at each of the two image lines. *)
Lemma parse_line_bool (results : list (gmap string Cell)) (d : gmap string Cell) (b : bool) :
  result_truthy (Some d) = true ->
  parse_line (results, Some d) (bool_line b)
  = (results, Some (<["image_present_bool" := CBool b]> d)).
Proof.
  intros Ht. unfold parse_line.
  replace (str_contains "Extraction results for" (bool_line b)) with false
    by (destruct b; reflexivity).
  rewrite Ht.
  replace (str_contains ":" (bool_line b)) with true by (destruct b; reflexivity).
  destruct b; reflexivity.
Qed.

Lemma parse_line_flag (results : list (gmap string Cell)) (d : gmap string Cell) (b : bool) :
  result_truthy (Some d) = true ->
  parse_line (results, Some d) (flag_line b)
  = (results, Some (<["image_present_flag" := CStr (if b then "Y" else "N")]> d)).
Proof.
  intros Ht. unfold parse_line.
  replace (str_contains "Extraction results for" (flag_line b)) with false
    by (destruct b; reflexivity).
  rewrite Ht.
  replace (str_contains ":" (flag_line b)) with true by (destruct b; reflexivity).
  destruct b; reflexivity.
Qed.

Lemma parse_line_ignored (results : list (gmap string Cell))
    (current : option (gmap string Cell)) (line : string) :
  result_truthy current = false ->
  str_contains "Extraction results for" line = false ->
  parse_line (results, current) line = (results, current).
Proof.
  intros Ht Hh. unfold parse_line. rewrite Hh, Ht, andb_false_r. reflexivity.
Qed.

(** The pair of image lines leaves the state consistent. *)
Lemma parse_line_pair (st : list (gmap string Cell) * option (gmap string Cell)) (b : bool) :
  consistent_state st ->
  consistent_state (parse_line (parse_line st (bool_line b)) (flag_line b)).
Proof.
  destruct st as [results current]. intros Hst.
  destruct (result_truthy current) eqn:Ht.
  - destruct current as [d|]; [|discriminate].
    rewrite (parse_line_bool _ _ _ Ht).
    rewrite parse_line_flag by apply result_truthy_insert.
    destruct Hst as [Hr _]. split; simpl; [exact Hr|].
    intros d' [= <-]. apply consistent_record_image.
  - rewrite !parse_line_ignored; auto; destruct b; reflexivity.
Qed.

Lemma parse_lines_consistent (lines : list string) :
  paired_lines lines ->
  forall st, consistent_state st -> consistent_state (fold_left parse_line lines st).
Proof.
  induction 1 as [|line rest Hsafe Hrest IH|b rest Hrest IH]; intros st Hst; simpl.
  - exact Hst.
  - apply IH. apply parse_line_safe; assumption.
  - apply IH. apply parse_line_pair. exact Hst.
Qed.

(** Every record parsed from a text whose lines pair the image lines is
    consistent. *)
Lemma parse_batch_output_consistent (output : string) :
  paired_lines (split_on "010" (strip output)) ->
  Forall consistent_record (parse_batch_output output).
Proof.
  intros Hp. unfold parse_batch_output.
  assert (Hst : consistent_state ([], None)) by (split; [constructor | discriminate]).
  pose proof (parse_lines_consistent _ Hp _ Hst) as Hend.
  destruct (fold_left parse_line (split_on "010" (strip output)) ([], None))
    as [results current].
  destruct (result_truthy current).
  - apply consistent_state_append. exact Hend.
  - apply Hend.
Qed.

(** ** What a run prints *)

Lemma stamped_line (p : Printed) :
  stamped p -> exists s, console_line p = String "[" s.
Proof. destruct p; simpl; intros H; try contradiction; eexists; reflexivity. Qed.

Lemma key_of_bracket (s : string) :
  key_of (String "[" s) = String "[" (rstrip (fst (split_once ":" s))).
Proof.
  unfold key_of.
  change (split_once ":" (String "[" s))
    with (let '(before, after) := split_once ":" s in (String "[" before, after)).
  destruct (split_once ":" s) as [before after]. reflexivity.
Qed.

(** A line that opens with a bracket is no image line. *)
Lemma safe_line_bracket (s : string) : safe_line (String "[" s).
Proof. right. rewrite key_of_bracket. split; discriminate. Qed.

Lemma safe_line_stamped (p : Printed) : stamped p -> safe_line (console_line p).
Proof. intros H. destruct (stamped_line p H) as [s ->]. apply safe_line_bracket. Qed.

Lemma paired_lines_stamped (printed : list Printed) :
  Forall stamped printed -> paired_lines (map console_line printed).
Proof.
  induction 1 as [|p rest Hp _ IH]; simpl; constructor; auto using safe_line_stamped.
Qed.

Lemma get_value_stamped (fields : option (gmap string Value)) (field_name : string) :
  Forall stamped (snd (get_value fields field_name)).
Proof.
  unfold get_value. destruct (get_value_body fields field_name); simpl;
    repeat constructor.
Qed.

Lemma get_choice_options_stamped (reader : PdfReader) (field_name : string) :
  Forall stamped (snd (get_choice_options reader field_name)).
Proof.
  unfold get_choice_options. destruct (get_choice_options_body reader field_name); simpl;
    repeat constructor.
Qed.

Lemma detect_image_stamped (reader : PdfReader) (field_name : string) :
  Forall stamped (snd (detect_image_in_button reader field_name)).
Proof.
  unfold detect_image_in_button. destruct (detect_image_body reader field_name); simpl;
    repeat constructor.
Qed.

(** The record of [extract]: its flag is read off its boolean, and what is
    printed is warnings followed by the block of results. *)
Lemma extract_printed (pdf_path : string) (reader : PdfReader)
    (fields : option (gmap string Value)) :
  let res := fst (extract pdf_path reader fields) in
  image_present_flag res = (if image_present_bool res then "Y" else "N")
  /\ exists warnings,
       Forall stamped warnings
       /\ snd (extract pdf_path reader fields) = warnings ++ results_block res.
Proof.
  unfold extract.
  pose proof (get_value_stamped fields DOC_NUM_FIELD) as H1.
  pose proof (get_value_stamped fields CORNER_OF_SECTION_FIELD) as H2.
  pose proof (get_value_stamped fields TOWNSHIP_FIELD) as H3.
  pose proof (get_value_stamped fields RANGE_FIELD) as H4.
  pose proof (get_value_stamped fields COUNTY_FIELD) as H5.
  pose proof (get_choice_options_stamped reader TOWNSHIP_FIELD) as H6.
  pose proof (get_choice_options_stamped reader RANGE_FIELD) as H7.
  pose proof (get_choice_options_stamped reader COUNTY_FIELD) as H8.
  pose proof (detect_image_stamped reader SURVEY_IMAGE_FIELD) as H9.
  destruct (get_value fields DOC_NUM_FIELD) as [v1 p1],
    (get_value fields CORNER_OF_SECTION_FIELD) as [v2 p2],
    (get_value fields TOWNSHIP_FIELD) as [v3 p3],
    (get_value fields RANGE_FIELD) as [v4 p4],
    (get_value fields COUNTY_FIELD) as [v5 p5],
    (get_choice_options reader TOWNSHIP_FIELD) as [o1 p6],
    (get_choice_options reader RANGE_FIELD) as [o2 p7],
    (get_choice_options reader COUNTY_FIELD) as [o3 p8],
    (detect_image_in_button reader SURVEY_IMAGE_FIELD) as [b p9].
  simpl in *. split; [reflexivity|].
  exists (p1 ++ p2 ++ p3 ++ p4 ++ p5 ++ p6 ++ p7 ++ p8 ++ p9).
  split.
  - repeat (apply Forall_app; split; [assumption|]). assumption.
  - rewrite <- !app_assoc. reflexivity.
Qed.

(** In the block of results the image lines come as the pair. *)
Lemma results_block_paired (res : ExtractionResult) :
  image_present_flag res = (if image_present_bool res then "Y" else "N") ->
  paired_lines (map console_line (results_block res)).
Proof.
  intros Hflag. unfold results_block. cbn [map].
  apply paired_safe; [apply safe_line_stamped; exact I|].
  do 5 (apply paired_safe;
        [right; split; intros H; vm_compute in H; discriminate|]).
  change (console_line (Out ("Image present (bool): " +:+ bool_text (image_present_bool res))))
    with (bool_line (image_present_bool res)).
  replace (console_line (Out ("Image present (Y/N): " +:+ image_present_flag res)))
    with (flag_line (image_present_bool res))
    by (unfold flag_line; rewrite Hflag; reflexivity).
  apply paired_image.
  do 3 (apply paired_safe;
        [right; split; intros H; vm_compute in H; discriminate|]).
  apply paired_safe; [left; reflexivity | constructor].
Qed.

Lemma process_pdf_printed (pdf_path : string) :
  snd (process_pdf pdf_path)
  = INFO_processing pdf_path
    :: match load_reader pdf_path with
       | Return reader =>
           match get_fields_dict reader with
           | Return fields => snd (extract pdf_path reader fields)
           | Raise e => [ERROR_extraction pdf_path e]
           end
       | Raise e => [ERROR_extraction pdf_path e]
       end.
Proof.
  unfold process_pdf.
  destruct (load_reader pdf_path) as [reader|e]; simpl; [|reflexivity].
  destruct (get_fields_dict reader) as [fields|e]; simpl; [|reflexivity].
  destruct (extract pdf_path reader fields). reflexivity.
Qed.

Lemma process_pdf_paired (pdf_path : string) :
  paired_lines (map console_line (snd (process_pdf pdf_path))).
Proof.
  rewrite process_pdf_printed. cbn [map].
  apply paired_safe; [apply safe_line_stamped; exact I|].
  assert (Herr : forall e, paired_lines (map console_line [ERROR_extraction pdf_path e])).
  { intros e. cbn [map]. apply paired_safe; [apply safe_line_stamped; exact I|].
    constructor. }
  destruct (load_reader pdf_path) as [reader|e]; [|apply Herr].
  destruct (get_fields_dict reader) as [fields|e]; [|apply Herr].
  destruct (extract_printed pdf_path reader fields) as (Hflag & warnings & Hw & Hp).
  rewrite Hp, map_app. apply paired_lines_app.
  - apply paired_lines_stamped. exact Hw.
  - apply results_block_paired. exact Hflag.
Qed.

Lemma process_files_paired (pdf_files : list string) :
  paired_lines (map console_line (snd (process_files pdf_files))).
Proof.
  induction pdf_files as [|pdf_path rest IH]; simpl; [constructor|].
  pose proof (process_pdf_paired pdf_path) as Hp.
  destruct (process_pdf pdf_path) as [result p1].
  destruct (process_files rest) as [results p2]. simpl in *.
  rewrite map_app. apply paired_lines_app; assumption.
Qed.

Lemma process_pdf_consistent (pdf_path : string) (res : ExtractionResult) :
  fst (process_pdf pdf_path) = Some res -> consistent_result res.
Proof.
  rewrite process_pdf_result.
  destruct (load_reader pdf_path) as [reader|e]; [|discriminate].
  destruct (get_fields_dict reader) as [fields|e]; [|discriminate].
  intros [= <-]. destruct (extract_printed pdf_path reader fields) as [Hflag _].
  unfold consistent_result. rewrite Hflag.
  destruct (image_present_bool (fst (extract pdf_path reader fields)));
    split; split; congruence.
Qed.

Lemma process_files_consistent (pdf_files : list string) :
  Forall consistent_result (fst (process_files pdf_files)).
Proof.
  rewrite process_files_results.
  induction pdf_files as [|pdf_path rest IH]; [constructor|].
  change (omap (fun p => fst (process_pdf p)) (pdf_path :: rest))
    with (match fst (process_pdf pdf_path) with
          | Some res => res :: omap (fun p => fst (process_pdf p)) rest
          | None => omap (fun p => fst (process_pdf p)) rest
          end).
  destruct (fst (process_pdf pdf_path)) as [res|] eqn:Hres; [|exact IH].
  constructor; [apply (process_pdf_consistent pdf_path); exact Hres | exact IH].
Qed.

(** The lines of the console text, when no printed line holds a line break. *)
Lemma split_on_console (printed : list Printed) :
  Forall (fun p => single_line (console_line p)) printed ->
  split_on "010" (console printed) = map console_line printed ++ [""].
Proof.
  induction 1 as [|p rest Hp _ IH]; [reflexivity|].
  cbn [console map]. rewrite split_on_app by exact Hp. rewrite IH. reflexivity.
Qed.

(** The text of a run starts with a bracket, or is empty. *)
Lemma process_files_lstrip (pdf_files : list string) :
  lstrip (console (snd (process_files pdf_files))) = console (snd (process_files pdf_files)).
Proof.
  destruct pdf_files as [|pdf_path rest]; [reflexivity|]. simpl.
  unfold process_pdf.
  destruct (try_except _ _) as [result printed].
  destruct (process_files rest) as [results p2]. reflexivity.
Qed.

(** C3 (as amended).  The record that [process_pdf] returns has the flag
    "Y" exactly when its boolean is true and the flag "N" exactly when it is
    false; and when no line that the run prints holds a line break (no
    value, option, file name or message does), every record that
    [parse_batch_output] reads from the text of the run has the same
    property. *)
Theorem image_outputs_consistent (pdf_files : list string) :
  Forall consistent_result (fst (process_files pdf_files))
  /\ (Forall (fun p => single_line (console_line p)) (snd (process_files pdf_files)) ->
      Forall consistent_record
        (parse_batch_output (console (snd (process_files pdf_files))))).
Proof.
  split; [apply process_files_consistent|].
  intros Hsingle. apply parse_batch_output_consistent.
  unfold strip. rewrite process_files_lstrip.
  eapply paired_lines_rstripped; [|apply rstripped_split].
  rewrite (split_on_console _ Hsingle).
  apply paired_lines_app; [apply process_files_paired|].
  apply paired_safe; [left; reflexivity | constructor].
Qed.

(** ** The image outputs of a document, parsed again *)

Lemma rstrip_app (x y : string) :
  rstrip y <> "" -> rstrip (x +:+ y) = x +:+ rstrip y.
Proof.
  intros Hy. induction x as [|c x IH]; [reflexivity|].
  rewrite append_cons, rstrip_cons, IH.
  assert (Hne : String.eqb (x +:+ rstrip y) "" = false).
  { apply String.eqb_neq. destruct x; [exact Hy | discriminate]. }
  rewrite Hne, andb_false_r. reflexivity.
Qed.

Lemma append_assoc (x y z : string) : (x +:+ y) +:+ z = x +:+ (y +:+ z).
Proof.
  induction x as [|c x IH]; [reflexivity|].
  rewrite !append_cons, IH. reflexivity.
Qed.

Lemma console_app (l1 l2 : list Printed) :
  console (l1 ++ l2) = console l1 +:+ console l2.
Proof.
  induction l1 as [|p l1 IH]; [reflexivity|].
  cbn [app console]. rewrite IH, append_assoc. reflexivity.
Qed.

(** The lines of a text that ends with the separator line. *)
Lemma lines_to_separator (printed : list Printed) :
  Forall (fun p => single_line (console_line p)) printed ->
  split_on "010" (rstrip (console (printed ++ [Out separator])))
  = map console_line printed ++ [separator].
Proof.
  intros Hsingle. rewrite console_app.
  rewrite rstrip_app by (vm_compute; discriminate).
  replace (rstrip (console [Out separator])) with separator by reflexivity.
  induction Hsingle as [|p rest Hp _ IH]; [reflexivity|].
  cbn [console map app]. rewrite append_assoc.
  change (String "010" (console rest) +:+ separator)
    with (String "010" (console rest +:+ separator)).
  rewrite split_on_app by exact Hp. rewrite IH. reflexivity.
Qed.

Lemma before_last_colon_end (s : string) : before_last_colon (s +:+ ":") = Some s.
Proof.
  induction s as [|c s IH]; [reflexivity|].
  rewrite append_cons. cbn [before_last_colon]. rewrite IH. reflexivity.
Qed.

Lemma until_newline_single (s : string) : single_line s -> until_newline s = s.
Proof.
  unfold single_line. induction s as [|c s IH]; [reflexivity|].
  intros H. apply has_char_cons in H as [Hc Hs].
  cbn [until_newline]. apply Ascii.eqb_neq in Hc. rewrite Hc, (IH Hs). reflexivity.
Qed.

Lemma single_line_app (x y : string) :
  single_line (x +:+ y) -> single_line x /\ single_line y.
Proof.
  unfold single_line. induction x as [|c x IH]; [auto|].
  rewrite append_cons. intros H. apply has_char_cons in H as [Hc Hs].
  destruct (IH Hs) as [Hx Hy]. split; [|exact Hy].
  simpl. apply Ascii.eqb_neq in Hc. rewrite Hc, Hx. reflexivity.
Qed.

(** The header of a block is recognized, whatever stands before it on the
    line. *)
Lemma header_found (pre name : string) :
  name <> "" ->
  single_line name ->
  str_contains "Extraction results for"
    (pre +:+ "Extraction results for " +:+ name +:+ ":") = true
  /\ exists g,
       search_results_for (pre +:+ "Extraction results for " +:+ name +:+ ":") = Some g.
Proof.
  intros Hne Hsingle.
  assert (Hgroup : match_group_colon (name +:+ ":") = Some name).
  { unfold match_group_colon.
    assert (Hs : single_line (name +:+ ":")).
    { unfold single_line in *. clear Hne. induction name as [|c s IH]; [reflexivity|].
      apply has_char_cons in Hsingle as [Hc Hs]. rewrite append_cons. simpl.
      apply Ascii.eqb_neq in Hc. rewrite Hc. exact (IH Hs). }
    rewrite (until_newline_single _ Hs), before_last_colon_end.
    destruct name; [congruence | reflexivity]. }
  induction pre as [|c pre [IHc [g IHs]]].
  - split; [reflexivity|]. exists name.
    change (search_results_for ("" +:+ "Extraction results for " +:+ name +:+ ":"))
      with (match match_group_colon (name +:+ ":") with
            | Some g => Some g
            | None => search_results_for ("xtraction results for " +:+ name +:+ ":")
            end).
    rewrite Hgroup. reflexivity.
  - rewrite append_cons. split.
    + cbn [str_contains]. rewrite IHc.
      destruct (String.prefix _ _); reflexivity.
    + cbn [search_results_for]. rewrite IHs.
      destruct (strip_prefix _ _) as [rest|]; [|eauto].
      destruct (match_group_colon rest); eauto.
Qed.

Lemma header_line_parsed (st : list (gmap string Cell) * option (gmap string Cell))
    (name : string) :
  name <> "" ->
  single_line name ->
  exists results g,
    parse_line st (console_line (INFO_results name))
    = (results, Some {[ "filename" := CStr g ]}).
Proof.
  intros Hne Hsingle.
  destruct (header_found ("[" +:+ ts +:+ "] INFO: ") name Hne Hsingle) as [Hc [g Hs]].
  assert (Hline : console_line (INFO_results name)
                  = ("[" +:+ ts +:+ "] INFO: ") +:+ "Extraction results for " +:+ name +:+ ":").
  { cbn [console_line]. unfold stamp. rewrite !append_assoc. reflexivity. }
  rewrite Hline. destruct st as [results current]. unfold parse_line.
  rewrite Hc, Hs. eauto.
Qed.

(** A line with a colon keeps a record open. *)
Lemma parse_line_keeps_open (st : list (gmap string Cell) * option (gmap string Cell))
    (line : string) :
  result_truthy (snd st) = true ->
  has_char ":" line = true ->
  result_truthy (snd (parse_line st line)) = true.
Proof.
  destruct st as [results current]. cbn [snd]. intros Ht Hc. unfold parse_line.
  destruct (str_contains "Extraction results for" line).
  - destruct (search_results_for line); [|exact Ht].
    simpl. apply negb_true_iff, bool_decide_eq_false.
    apply (insert_non_empty (M := gmap string)).
  - rewrite Ht, str_contains_colon, Hc. cbn [andb].
    destruct (split_once ":" line) as [before after].
    destruct (key_map_get (strip before) key_map); [|exact Ht].
    destruct current as [d|]; [|discriminate]. apply result_truthy_insert.
Qed.

Lemma holds_image_truthy (b : bool) (flag : string) (d : gmap string Cell) :
  holds_image b flag d -> result_truthy (Some d) = true.
Proof.
  intros [Hb _]. simpl. apply negb_true_iff, bool_decide_eq_false.
  intros ->. rewrite lookup_empty in Hb. discriminate.
Qed.

(** A line that holds no image key leaves the image outputs where they are:
    in the open record, or in a record that is closed. *)
Lemma parse_line_carries (b : bool) (flag : string)
    (st : list (gmap string Cell) * option (gmap string Cell)) (line : string) :
  carries_image b flag st -> safe_line line -> carries_image b flag (parse_line st line).
Proof.
  destruct st as [results current]. intros Hcar Hsafe.
  assert (Happ : exists d, In d (append_result results current) /\ holds_image b flag d).
  { destruct Hcar as [(d & Hin & Hd)|(d & Hcur & Hd)]; simpl in *.
    - exists d. split; [|exact Hd]. destruct current; simpl; [|exact Hin].
      apply in_or_app. left. exact Hin.
    - subst current. exists d. split; [|exact Hd]. simpl.
      apply in_or_app. right. left. reflexivity. }
  unfold parse_line.
  destruct (str_contains "Extraction results for" line).
  - destruct (search_results_for line) as [name|]; [|exact Hcar].
    left. simpl. destruct (result_truthy current) eqn:Ht; [exact Happ|].
    destruct Hcar as [Hres|(d & Hcur & Hd)]; [exact Hres|].
    simpl in Hcur. subst current.
    rewrite (holds_image_truthy _ _ _ Hd) in Ht. discriminate.
  - destruct (result_truthy current && str_contains ":" line) eqn:Hbranch.
    + apply andb_true_iff in Hbranch as [_ Hcolon].
      rewrite str_contains_colon in Hcolon.
      destruct Hsafe as [Hno|[Hkb Hkf]]; [congruence|].
      unfold key_of in Hkb, Hkf.
      destruct (split_once ":" line) as [before after]. simpl in Hkb, Hkf.
      destruct (key_map_get (strip before) key_map) as [mapped_key|] eqn:Hmap;
        [|exact Hcar].
      destruct (key_map_image _ _ Hmap Hkb Hkf) as [Hmb Hmf].
      destruct Hcar as [Hres|(d & Hcur & [Hb Hf])]; [left; exact Hres|].
      simpl in Hcur. subst current. right. simpl. eexists. split; [reflexivity|].
      split; rewrite lookup_insert_ne by congruence; assumption.
    + destruct (str_contains "---" line && result_truthy current) eqn:Hsep.
      * left. exact Happ.
      * exact Hcar.
Qed.

Lemma parse_lines_carry (b : bool) (flag : string) (lines : list string) :
  Forall safe_line lines ->
  forall st, carries_image b flag st -> carries_image b flag (fold_left parse_line lines st).
Proof.
  induction 1 as [|line rest Hsafe _ IH]; intros st Hst; simpl; [exact Hst|].
  apply IH. apply parse_line_carries; assumption.
Qed.

Lemma parse_lines_keep_open (lines : list string) :
  Forall (fun line => has_char ":" line = true) lines ->
  forall st, result_truthy (snd st) = true ->
             result_truthy (snd (fold_left parse_line lines st)) = true.
Proof.
  induction 1 as [|line rest Hc _ IH]; intros st Hst; simpl; [exact Hst|].
  apply IH. apply parse_line_keeps_open; assumption.
Qed.

(** What the parser returns when a record of its last state holds the
    image outputs. *)
Lemma carries_image_returned (b : bool) (flag : string)
    (st : list (gmap string Cell) * option (gmap string Cell)) :
  carries_image b flag st ->
  exists d,
    In d (let '(results, current) := st in
          if result_truthy current then append_result results current else results)
    /\ holds_image b flag d.
Proof.
  destruct st as [results current].
  intros [(d & Hin & Hd)|(d & Hcur & Hd)]; simpl in Hin || simpl in Hcur; exists d.
  - split; [|exact Hd]. destruct (result_truthy current); [|exact Hin].
    destruct current; simpl; [apply in_or_app; left|]; exact Hin.
  - subst current. rewrite (holds_image_truthy _ _ _ Hd). split; [|exact Hd].
    simpl. apply in_or_app. right. left. reflexivity.
Qed.

(** The record that the parser reads from what a document prints holds the
    image outputs of the record that [process_pdf] returns for it, when no
    printed line holds a line break and the file has a name. *)
Theorem parsed_record_keeps_image (pdf_path : string) (res : ExtractionResult) :
  fst (process_pdf pdf_path) = Some res ->
  Forall (fun p => single_line (console_line p)) (snd (process_pdf pdf_path)) ->
  filename res <> "" ->
  exists d,
    In d (parse_batch_output (console (snd (process_pdf pdf_path))))
    /\ holds_image (image_present_bool res) (image_present_flag res) d.
Proof.
  rewrite process_pdf_result, process_pdf_printed.
  destruct (load_reader pdf_path) as [reader|e]; [|discriminate].
  destruct (get_fields_dict reader) as [fields|e]; [|discriminate].
  intros [= <-].
  destruct (extract_printed pdf_path reader fields) as (Hflag & warnings & _ & Hp).
  rewrite Hp. set (res := fst (extract pdf_path reader fields)) in *. clearbody res.
  intros Hsingle Hname.
  set (head := firstn 11 (results_block res)).
  assert (Hblock : results_block res = head ++ [Out separator]) by reflexivity.
  rewrite Hblock in Hsingle |- *.
  set (before := INFO_processing pdf_path :: warnings ++ head).
  assert (Hprinted : INFO_processing pdf_path :: warnings ++ head ++ [Out separator]
                     = before ++ [Out separator]).
  { unfold before. cbn [app]. rewrite <- app_assoc. reflexivity. }
  rewrite Hprinted in Hsingle |- *.
  apply Forall_app in Hsingle as [Hbefore _].
  unfold parse_batch_output, strip.
  replace (lstrip (console (before ++ [Out separator])))
    with (console (before ++ [Out separator])) by reflexivity.
  rewrite (lines_to_separator _ Hbefore).
  assert (Hhead : Forall (fun p => single_line (console_line p)) head).
  { unfold before in Hbefore. inversion Hbefore as [|? ? _ Hrest]; subst.
    apply Forall_app in Hrest as [_ Hh]. exact Hh. }
  assert (Hfile : single_line (filename res)).
  { inversion Hhead as [|? ? Hheader _]; subst.
    cbn [console_line] in Hheader. unfold stamp in Hheader.
    do 6 (apply single_line_app in Hheader as [_ Hheader]).
    apply single_line_app in Hheader as [Hheader _]. exact Hheader. }
  unfold before. cbn [map]. rewrite map_app. cbn [app].
  rewrite <- app_assoc. cbn [fold_left]. rewrite fold_left_app.
  set (st0 := fold_left parse_line (map console_line warnings) _).
  unfold head. cbn [firstn results_block map app fold_left].
  destruct (header_line_parsed st0 (filename res) Hname Hfile) as (r1 & g & ->).
  set (values := [ console_line (Out ("Doc Num: " +:+ doc_num res));
                   console_line (Out ("Corner of Section: " +:+ corner_of_section res));
                   console_line (Out ("Township (value): " +:+ township res));
                   console_line (Out ("Range (value): " +:+ range res));
                   console_line (Out ("County (value): " +:+ county res)) ]).
  assert (Hopen : result_truthy
                    (snd (fold_left parse_line values
                            (r1, Some ({[ "filename" := CStr g ]} : gmap string Cell))))
                  = true).
  { apply parse_lines_keep_open.
    - repeat constructor.
    - apply (result_truthy_insert ∅). }
  unfold values in Hopen. cbn [fold_left] in Hopen.
  match type of Hopen with
  | result_truthy (snd ?st) = true => destruct st as [r2 [d2|]]; [|discriminate]
  end.
  cbn [snd] in Hopen.
  change (console_line (Out ("Image present (bool): " +:+ bool_text (image_present_bool res))))
    with (bool_line (image_present_bool res)).
  replace (console_line (Out ("Image present (Y/N): " +:+ image_present_flag res)))
    with (flag_line (image_present_bool res))
    by (unfold flag_line; rewrite Hflag; reflexivity).
  rewrite (parse_line_bool _ _ _ Hopen).
  rewrite parse_line_flag by apply result_truthy_insert.
  match goal with
  | |- context [parse_line (parse_line (parse_line (parse_line ?st ?l1) ?l2) ?l3) ?l4] =>
      change (parse_line (parse_line (parse_line (parse_line st l1) l2) l3) l4)
        with (fold_left parse_line [l1; l2; l3; l4] st);
      assert (Hcar : carries_image (image_present_bool res) (image_present_flag res)
                       (fold_left parse_line [l1; l2; l3; l4] st))
  end.
  { apply parse_lines_carry.
    - do 3 (constructor; [right; split; intros H; vm_compute in H; discriminate|]).
      constructor; [left; reflexivity | constructor].
    - right. eexists. split; [reflexivity|]. rewrite Hflag. split.
      + rewrite lookup_insert_ne by discriminate. apply lookup_insert_eq.
      + apply lookup_insert_eq. }
  apply carries_image_returned in Hcar. exact Hcar.
Qed.

(** ** More about the locator and the detector *)

Lemma scan_fields_named (reader : PdfReader) (field_name : string) (fs : list Value)
    (obj : Value) :
  scan_fields reader field_name fs = Return obj ->
  obj = PyNone \/ named field_name obj = true.
Proof.
  induction fs as [|f rest IH]; simpl.
  - intros [= <-]. left. reflexivity.
  - destruct (get_object reader f) as [o|e]; simpl; [|discriminate].
    destruct (py_get o "/T") as [t|e] eqn:Ht; simpl; [|discriminate].
    destruct (py_eq_str t field_name) eqn:Heq; [|exact IH].
    intros [= <-]. right. unfold named. rewrite Ht. exact Heq.
Qed.

(** What the locator returns is [None] or a field that carries the name
    asked for; it is never a field of another name, and never a
    reference. *)
Theorem find_field_obj_sound (reader : PdfReader) (field_name : string) (obj : Value) :
  find_field_obj reader field_name = Return obj ->
  obj = PyNone
  \/ (named field_name obj = true
      /\ exists c entries,
           obj = DictionaryObject entries \/ obj = StreamObject c entries).
Proof.
  unfold find_field_obj.
  destruct (if py_truthy (dict_get (trailer reader) "/Root")
            then py_get (dict_get (trailer reader) "/Root") "/AcroForm"
            else Return PyNone) as [acro|e]; simpl; [|discriminate].
  destruct (py_truthy acro); simpl; [|intros [= <-]; left; reflexivity].
  destruct (get_object reader acro) as [a|e]; simpl; [|discriminate].
  destruct (py_get_default a "/Fields" (ArrayObject [])) as [fs|e]; simpl; [|discriminate].
  destruct (py_iter fs) as [items|e]; simpl; [|discriminate].
  intros H. apply scan_fields_named in H as [->|Hn]; [left; reflexivity|].
  right. split; [exact Hn|]. unfold named in Hn.
  destruct obj; simpl in Hn; try discriminate.
  - exists DecodedStreamObject, entries. left. reflexivity.
  - exists c, entries. right. reflexivity.
Qed.

(** The type gate: for a name that the locator does not find, and for a
    field whose [/FT] is not [/Btn], the detector answers false and prints
    nothing, whatever the field holds besides. *)
Theorem detector_type_gate (reader : PdfReader) (field_name : string) (obj : Value) :
  find_field_obj reader field_name = Return obj ->
  ~ is_button obj ->
  detect_image_in_button reader field_name = (false, []).
Proof.
  intros Hfind Hnot. apply detect_image_fst. unfold detect_image_body.
  rewrite Hfind. simpl.
  destruct (find_field_obj_sound _ _ _ Hfind) as [->|[_ (c & entries & Hshape)]];
    [reflexivity|].
  destruct (py_truthy obj); simpl; [|reflexivity].
  assert (Hft : exists ft, py_get obj "/FT" = Return ft)
    by (destruct Hshape as [->| ->]; eexists; reflexivity).
  destruct Hft as [ft Hft]. rewrite Hft. simpl.
  destruct (py_eq_str ft "/Btn") eqn:Hbtn; [|reflexivity].
  destruct Hnot. exists ft. auto.
Qed.

Lemma detect_image_body_icon (reader : PdfReader) (field_name : string) (obj : Value) :
  find_field_obj reader field_name = Return obj ->
  is_button obj ->
  has_icon obj ->
  detect_image_body reader field_name = Return true.
Proof.
  intros Hfind Hbtn (mk & i & Hmk & Hi & Hnn).
  pose proof (is_button_truthy _ Hbtn) as Htr.
  destruct Hbtn as (ft & Hft & Hbtn).
  unfold detect_image_body. rewrite Hfind. simpl. rewrite Htr. simpl.
  rewrite Hft. simpl. rewrite Hbtn. simpl. rewrite Hmk. simpl.
  rewrite (py_get_truthy _ _ _ Hi Hnn). rewrite Hi. simpl.
  destruct i; try reflexivity. congruence.
Qed.

(** When the detector answers true: the locator finds a Button, and either
    its [/MK] dictionary holds [/I], or it has no icon entry and an Image
    XObject is among the resources of its unfiltered normal appearance.
    Nothing else makes the answer true; the [/Names] of the catalog and its
    [/EmbeddedFiles] do not. *)
Theorem detector_true_exactly (reader : PdfReader) (field_name : string) :
  fst (detect_image_in_button reader field_name) = true
  <-> exists obj,
        find_field_obj reader field_name = Return obj
        /\ is_button obj
        /\ (has_icon obj
            \/ (no_icon obj /\ appearance_image reader obj DecodedStreamObject)).
Proof.
  rewrite detect_image_true. split.
  - intros Hbody.
    destruct (find_field_obj reader field_name) as [obj|e] eqn:Hfind.
    2: { unfold detect_image_body in Hbody. rewrite Hfind in Hbody. discriminate. }
    exists obj. split; [reflexivity|].
    assert (Hbtn : is_button obj).
    { unfold detect_image_body in Hbody. rewrite Hfind in Hbody. simpl in Hbody.
      destruct (py_truthy obj); simpl in Hbody; [|discriminate].
      destruct (py_get obj "/FT") as [ft|e] eqn:Hft; simpl in Hbody; [|discriminate].
      destruct (py_eq_str ft "/Btn") eqn:Heq; simpl in Hbody; [|discriminate].
      exists ft. auto. }
    split; [exact Hbtn|].
    assert (Hmk : has_icon obj \/ no_icon obj).
    { pose proof (is_button_truthy _ Hbtn) as Htr.
      destruct Hbtn as (ft & Hft & Heq).
      unfold detect_image_body in Hbody. rewrite Hfind in Hbody. simpl in Hbody.
      rewrite Htr in Hbody. simpl in Hbody. rewrite Hft in Hbody. simpl in Hbody.
      rewrite Heq in Hbody. simpl in Hbody.
      destruct (py_get obj "/MK") as [mk|e] eqn:Hmk; simpl in Hbody; [|discriminate].
      destruct (py_truthy mk) eqn:Hmt.
      - destruct (py_get mk "/I") as [i|e] eqn:Hi; simpl in Hbody; [|discriminate].
        destruct i; try (left; exists mk; eexists; repeat split; eauto; discriminate).
        right. exists mk. auto.
      - right. exists mk. auto. }
    destruct Hmk as [Hicon|Hno]; [left; exact Hicon|].
    right. split; [exact Hno|].
    apply scan_appearance_spec.
    apply (detect_image_body_no_icon _ _ _ Hfind Hbtn Hno). exact Hbody.
  - intros (obj & Hfind & Hbtn & [Hicon|[Hno Himg]]).
    + eapply detect_image_body_icon; eauto.
    + apply (detect_image_body_no_icon _ _ _ Hfind Hbtn Hno).
      apply scan_appearance_spec. exact Himg.
Qed.

(** ** The fallback index and the readers *)









(** ** The counts of a cycle *)

Lemma process_files_count (pdf_files : list string) :
  length (fst (process_files pdf_files)) + failed_documents pdf_files = length pdf_files.
Proof.
  unfold failed_documents.
  induction pdf_files as [|pdf_path rest IH]; [reflexivity|]. simpl.
  destruct (process_pdf pdf_path) as [[res|] p1]; destruct (process_files rest) as [results p2];
    simpl in *; lia.
Qed.

(** A cycle over a folder that holds documents returns their number and the
    number of records; the two differ by the number of documents for which
    [process_pdf] returned nothing, so that no cycle reports more records
    than documents.  The last line of the cycle is the summary when every
    document gave a record, and otherwise the warning, which carries the
    number of documents that failed. *)
Theorem cycle_counts (folder_path : string) (cycle_number : nat) (pdf_files : list string) :
  glob_pdfs folder_path = Some pdf_files ->
  pdf_files <> [] ->
  let attempted := fst (fst (process_batch folder_path cycle_number)) in
  let succeeded := snd (fst (process_batch folder_path cycle_number)) in
  let printed := snd (process_batch folder_path cycle_number) in
  attempted = length pdf_files
  /\ succeeded + failed_documents pdf_files = attempted
  /\ (failed_documents pdf_files = 0 ->
      List.last printed (Out "") = INFO_cycle_summary cycle_number attempted attempted)
  /\ (0 < failed_documents pdf_files ->
      List.last printed (Out "")
      = WARN_cycle_failed cycle_number (failed_documents pdf_files)).
Proof.
  intros Hglob Hne. unfold process_batch. rewrite Hglob.
  pose proof (process_files_count pdf_files) as Hcount.
  destruct pdf_files as [|pdf_path rest]; [congruence|].
  destruct (process_files (pdf_path :: rest)) as [results printed] eqn:Hfiles.
  cbn [fst snd] in *.
  split; [reflexivity|]. split; [exact Hcount|].
  rewrite !app_assoc.
  split; intros Hfailed.
  - assert (Hlen : length results = length (pdf_path :: rest)) by lia.
    rewrite Hlen, Nat.ltb_irrefl, app_nil_r, last_last. reflexivity.
  - assert (Hlt : Nat.ltb (length results) (length (pdf_path :: rest)) = true)
      by (apply Nat.ltb_lt; lia).
    rewrite Hlt, last_last. f_equal. lia.
Qed.

(** ** The shape of the parsed records *)

Lemma key_map_get_in (key mapped_key : string) (m : list (string * string)) :
  key_map_get key m = Some mapped_key -> In mapped_key (map snd m).
Proof.
  induction m as [|[k v] rest IH]; simpl; [discriminate|].
  destruct (String.eqb k key); [intros [= ->]; left; reflexivity | right; auto].
Qed.

Lemma key_map_not_filename (key mapped_key : string) :
  key_map_get key key_map = Some mapped_key -> mapped_key <> "filename".
Proof.
  intros H%key_map_get_in. simpl in H.
  repeat (destruct H as [<-|H]; [discriminate|]). destruct H.
Qed.

Lemma parsed_cell_shape (mapped_key value : string) :
  match parsed_cell mapped_key value with
  | CBool _ => mapped_key = "image_present_bool"
  | CStr _ => mapped_key <> "image_present_bool"
  end.
Proof.
  unfold parsed_cell.
  destruct (String.eqb mapped_key "image_present_bool") eqn:Heq.
  - apply String.eqb_eq in Heq. exact Heq.
  - apply String.eqb_neq in Heq. destruct (str_contains "options" mapped_key); exact Heq.
Qed.

Lemma well_formed_fresh (name : string) :
  well_formed_record {[ "filename" := CStr name ]}.
Proof.
  split.
  - exists name. apply lookup_singleton_eq.
  - intros k c H. apply lookup_singleton_Some in H as [<- <-].
    split; [left; reflexivity | discriminate].
Qed.

Lemma well_formed_insert (d : gmap string Cell) (key mapped_key value : string) :
  key_map_get key key_map = Some mapped_key ->
  well_formed_record d ->
  well_formed_record (<[mapped_key := parsed_cell mapped_key value]> d).
Proof.
  intros Hkey [[name Hname] Hcells]. split.
  - exists name. rewrite lookup_insert_ne; [exact Hname|].
    exact (key_map_not_filename _ _ Hkey).
  - intros k c H. destruct (decide (mapped_key = k)) as [<-|Hne].
    + rewrite lookup_insert_eq in H. injection H as <-.
      split; [right; exact (key_map_get_in _ _ _ Hkey) | apply parsed_cell_shape].
    + rewrite lookup_insert_ne in H by exact Hne. exact (Hcells _ _ H).
Qed.

Lemma well_formed_append (results : list (gmap string Cell))
    (current_result : option (gmap string Cell)) :
  well_formed_state (results, current_result) ->
  Forall well_formed_record (append_result results current_result).
Proof.
  intros [Hres Hcur]. simpl in *. destruct current_result as [d|]; simpl; [|exact Hres].
  apply Forall_app. split; [exact Hres|]. constructor; [|constructor]. apply Hcur. reflexivity.
Qed.

Lemma parse_line_well_formed (st : list (gmap string Cell) * option (gmap string Cell))
    (line : string) :
  well_formed_state st -> well_formed_state (parse_line st line).
Proof.
  destruct st as [results current_result]. intros Hst. unfold parse_line.
  destruct (str_contains "Extraction results for" line).
  - destruct (search_results_for line) as [name|]; [|exact Hst].
    split; simpl.
    + destruct (result_truthy current_result); [apply well_formed_append; exact Hst | apply Hst].
    + intros d [= <-]. apply well_formed_fresh.
  - destruct (result_truthy current_result && str_contains ":" line).
    + destruct (split_once ":" line) as [before after].
      destruct (key_map_get (strip before) key_map) as [mapped_key|] eqn:Hkey; [|exact Hst].
      destruct Hst as [Hres Hcur]. split; simpl in *; [exact Hres|].
      destruct current_result as [d0|]; simpl; [|discriminate].
      intros d [= <-]. apply (well_formed_insert _ _ _ _ Hkey). apply Hcur. reflexivity.
    + destruct (str_contains "---" line && result_truthy current_result); [|exact Hst].
      split; simpl; [apply well_formed_append; exact Hst | discriminate].
Qed.

Lemma parse_lines_well_formed (lines : list string)
    (st : list (gmap string Cell) * option (gmap string Cell)) :
  well_formed_state st -> well_formed_state (fold_left parse_line lines st).
Proof.
  revert st. induction lines as [|line rest IH]; intros st Hst; [exact Hst|].
  simpl. apply IH. apply parse_line_well_formed. exact Hst.
Qed.

Lemma parse_batch_output_shape (output : string) :
  Forall well_formed_record (parse_batch_output output).
Proof.
  unfold parse_batch_output.
  pose proof (parse_lines_well_formed (split_on "010" (strip output)) ([], None)) as H.
  destruct (fold_left parse_line (split_on "010" (strip output)) ([], None))
    as [results current_result].
  assert (Hst : well_formed_state (results, current_result)).
  { apply H. split; simpl; [constructor | discriminate]. }
  destruct (result_truthy current_result); [apply well_formed_append; exact Hst | apply Hst].
Qed.

(** Whatever text it is given, [parse_batch_output] returns records that
    name their file under "filename", whose other keys are among the ten
    targets of [key_map], and whose cells are strings except that of
    "image_present_bool", which is a boolean. *)
Theorem parsed_records_well_formed (output : string) :
  Forall well_formed_record (parse_batch_output output).
Proof. exact (parse_batch_output_shape output). Qed.

(** ** One record for each header *)

Lemma well_formed_truthy (d : gmap string Cell) :
  well_formed_record d -> result_truthy (Some d) = true.
Proof.
  intros [[name Hname] _]. simpl. apply negb_true_iff, bool_decide_eq_false.
  intros ->. rewrite lookup_empty in Hname. discriminate.
Qed.

Lemma state_names_append (results : list (gmap string Cell))
    (current_result : option (gmap string Cell)) :
  map record_name (append_result results current_result)
  = state_names (results, current_result).
Proof.
  unfold state_names. destruct current_result as [d|]; simpl.
  - apply map_app.
  - symmetry. apply app_nil_r.
Qed.

Lemma parse_line_names (st : list (gmap string Cell) * option (gmap string Cell))
    (line : string) :
  well_formed_state st ->
  state_names (parse_line st line)
  = state_names st ++ match header_name line with Some name => [name] | None => [] end.
Proof.
  destruct st as [results current_result]. intros Hst.
  unfold parse_line, header_name.
  destruct (str_contains "Extraction results for" line).
  - destruct (search_results_for line) as [name|]; [|symmetry; apply app_nil_r].
    assert (Hres : map record_name
                     (if result_truthy current_result
                      then append_result results current_result else results)
                   = state_names (results, current_result)).
    { destruct current_result as [d|].
      - rewrite (well_formed_truthy d) by (apply Hst; reflexivity).
        apply state_names_append.
      - simpl. unfold state_names. simpl. symmetry. apply app_nil_r. }
    unfold state_names at 1. cbn [fst snd]. rewrite Hres.
    unfold record_name. rewrite lookup_singleton_eq. reflexivity.
  - rewrite app_nil_r.
    destruct (result_truthy current_result && str_contains ":" line).
    + destruct (split_once ":" line) as [before after].
      destruct (key_map_get (strip before) key_map) as [mapped_key|] eqn:Hkey; [|reflexivity].
      unfold state_names. cbn [fst snd]. f_equal.
      destruct current_result as [d|]; [|reflexivity]. simpl. f_equal.
      unfold record_name. rewrite lookup_insert_ne; [reflexivity|].
      exact (key_map_not_filename _ _ Hkey).
    + destruct (str_contains "---" line && result_truthy current_result); [|reflexivity].
      unfold state_names at 1. cbn [fst snd]. rewrite app_nil_r.
      apply state_names_append.
Qed.

Lemma parse_lines_names (lines : list string)
    (st : list (gmap string Cell) * option (gmap string Cell)) :
  well_formed_state st ->
  state_names (fold_left parse_line lines st) = state_names st ++ omap header_name lines.
Proof.
  revert st. induction lines as [|line rest IH]; intros st Hst.
  - simpl. symmetry. apply app_nil_r.
  - cbn [fold_left]. rewrite (IH _ (parse_line_well_formed _ line Hst)).
    rewrite (parse_line_names _ _ Hst), <- app_assoc. f_equal.
    change (omap header_name (line :: rest))
      with (match header_name line with
            | Some name => name :: omap header_name rest
            | None => omap header_name rest
            end).
    destruct (header_name line); reflexivity.
Qed.

Lemma parse_batch_output_names (output : string) :
  map record_name (parse_batch_output output)
  = omap header_name (split_on "010" (strip output)).
Proof.
  unfold parse_batch_output.
  assert (Hinit : well_formed_state ([], None))
    by (split; simpl; [constructor | discriminate]).
  pose proof (parse_lines_names (split_on "010" (strip output)) _ Hinit) as Hnames.
  pose proof (parse_lines_well_formed (split_on "010" (strip output)) _ Hinit) as Hwf.
  destruct (fold_left parse_line (split_on "010" (strip output)) ([], None))
    as [results current_result].
  simpl in Hnames. rewrite <- Hnames.
  destruct current_result as [d|].
  - rewrite (well_formed_truthy d) by (apply Hwf; reflexivity). apply state_names_append.
  - simpl. unfold state_names. simpl. symmetry. apply app_nil_r.
Qed.

(** The parser returns one record for each line that it takes for a header,
    in the order of the lines and under the file name that the header
    announces: no header is lost, whether its document ends at a separator,
    at the next header or at the end of the text, and nothing else makes a
    record.  A text without header gives no record. *)
Theorem one_record_per_header (output : string) :
  map record_name (parse_batch_output output)
  = omap header_name (split_on "010" (strip output)).
Proof. exact (parse_batch_output_names output). Qed.

(** ** The block of results, parsed again *)

Lemma has_char_app (c : ascii) (x y : string) :
  has_char c (x +:+ y) = has_char c x || has_char c y.
Proof.
  induction x as [|a x IH]; [reflexivity|].
  rewrite append_cons. cbn [has_char]. rewrite IH, orb_assoc. reflexivity.
Qed.

(** The phrase of the header starts with a capital E. *)
Lemma str_contains_skip (pre s : string) :
  has_char "E" pre = false ->
  str_contains "Extraction results for" (pre +:+ s)
  = str_contains "Extraction results for" s.
Proof.
  induction pre as [|c pre IH]; [reflexivity|].
  intros [Hc Hpre]%has_char_cons. rewrite append_cons.
  change (str_contains "Extraction results for" (String c (pre +:+ s)))
    with (if (if ascii_dec "E" c
              then String.prefix "xtraction results for" (pre +:+ s) else false)
          then true
          else str_contains "Extraction results for" (pre +:+ s)).
  destruct (ascii_dec "E" c) as [<-|_]; [congruence | exact (IH Hpre)].
Qed.

Lemma search_results_skip (pre s : string) :
  has_char "E" pre = false ->
  search_results_for (pre +:+ s) = search_results_for s.
Proof.
  induction pre as [|c pre IH]; [reflexivity|].
  intros [Hc Hpre]%has_char_cons. rewrite append_cons.
  change (search_results_for (String c (pre +:+ s)))
    with (match
            match (if Ascii.eqb "E" c
                   then strip_prefix "xtraction results for " (pre +:+ s)
                   else None) with
            | Some rest => match_group_colon rest
            | None => None
            end
          with
          | Some g => Some g
          | None => search_results_for (pre +:+ s)
          end).
  destruct (Ascii.eqb_spec "E" c) as [<-|_]; [congruence | exact (IH Hpre)].
Qed.

Lemma search_results_here (name : string) :
  name <> "" ->
  single_line name ->
  search_results_for ("Extraction results for " +:+ name +:+ ":") = Some name.
Proof.
  intros Hne Hsingle.
  assert (Hgroup : match_group_colon (name +:+ ":") = Some name).
  { unfold match_group_colon.
    assert (Hs : single_line (name +:+ ":")).
    { unfold single_line. rewrite has_char_app, Hsingle. reflexivity. }
    rewrite (until_newline_single _ Hs), before_last_colon_end.
    destruct name; [congruence | reflexivity]. }
  change (search_results_for ("Extraction results for " +:+ name +:+ ":"))
    with (match match_group_colon (name +:+ ":") with
          | Some g => Some g
          | None => search_results_for ("xtraction results for " +:+ name +:+ ":")
          end).
  rewrite Hgroup. reflexivity.
Qed.

(** When the timestamp holds no capital E, the header of a block opens a
    record under the file name that was printed. *)
Lemma header_line_named (st : list (gmap string Cell) * option (gmap string Cell))
    (name : string) :
  has_char "E" ts = false ->
  name <> "" ->
  single_line name ->
  parse_line st (console_line (INFO_results name))
  = ((if result_truthy (snd st) then append_result (fst st) (snd st) else fst st),
     Some {[ "filename" := CStr name ]}).
Proof.
  intros Hts Hne Hsingle.
  assert (Hline : console_line (INFO_results name)
                  = ("[" +:+ ts +:+ "] INFO: ") +:+ "Extraction results for " +:+ name +:+ ":").
  { cbn [console_line]. unfold stamp. rewrite !append_assoc. reflexivity. }
  assert (Hpre : has_char "E" ("[" +:+ ts +:+ "] INFO: ") = false).
  { rewrite !has_char_app, Hts. reflexivity. }
  rewrite Hline. destruct st as [results current]. unfold parse_line.
  rewrite (str_contains_skip _ _ Hpre), (search_results_skip _ _ Hpre).
  rewrite (search_results_here _ Hne Hsingle).
  replace (str_contains "Extraction results for"
             ("Extraction results for " +:+ name +:+ ":")) with true by reflexivity.
  reflexivity.
Qed.

Lemma split_once_key (key rest : string) :
  has_char ":" key = false ->
  split_once ":" (key +:+ String ":" rest) = (key, rest).
Proof.
  induction key as [|c key IH]; [reflexivity|].
  intros [Hc Hkey]%has_char_cons. rewrite append_cons. cbn [split_once].
  apply Ascii.eqb_neq in Hc. rewrite Hc, (IH Hkey). reflexivity.
Qed.

(** A line of the block: the key, a colon, a blank and a text. *)
Lemma parse_key_line (key mapped_key text : string) (results : list (gmap string Cell))
    (d : gmap string Cell) :
  has_char ":" key = false ->
  has_char "E" key = false ->
  strip key = key ->
  key_map_get key key_map = Some mapped_key ->
  str_contains "Extraction results for" text = false ->
  result_truthy (Some d) = true ->
  parse_line (results, Some d) (key +:+ String ":" (String " " text))
  = (results, Some (<[mapped_key := parsed_cell mapped_key (strip text)]> d)).
Proof.
  intros Hcolon Hcap Hstrip Hkey Htext Ht. unfold parse_line.
  rewrite (str_contains_skip _ _ Hcap).
  change (String ":" (String " " text)) with (": " +:+ text).
  rewrite (str_contains_skip ": " text eq_refl), Htext, Ht.
  rewrite str_contains_colon, has_char_app.
  replace (has_char ":" (": " +:+ text)) with true by reflexivity.
  rewrite orb_true_r. cbn [andb].
  change (": " +:+ text) with (String ":" (String " " text)).
  rewrite (split_once_key _ _ Hcolon), Hstrip, Hkey.
  reflexivity.
Qed.

Lemma parse_line_separator (results : list (gmap string Cell)) (d : gmap string Cell) :
  result_truthy (Some d) = true ->
  parse_line (results, Some d) separator = (results ++ [d], None).
Proof.
  intros Ht. unfold parse_line.
  replace (str_contains "Extraction results for" separator) with false by reflexivity.
  rewrite Ht.
  replace (str_contains ":" separator) with false by reflexivity.
  replace (str_contains "---" separator) with true by reflexivity.
  reflexivity.
Qed.

(** The ten lines of a block, read into the record that its header opened. *)
Lemma block_lines_parsed (res : ExtractionResult) (results : list (gmap string Cell)) :
  image_present_flag res = (if image_present_bool res then "Y" else "N") ->
  header_free res ->
  fold_left parse_line
    [ "Doc Num: " +:+ doc_num res;
      "Corner of Section: " +:+ corner_of_section res;
      "Township (value): " +:+ township res;
      "Range (value): " +:+ range res;
      "County (value): " +:+ county res;
      "Image present (bool): " +:+ bool_text (image_present_bool res);
      "Image present (Y/N): " +:+ image_present_flag res;
      "Township options: " +:+ options_text (township_options res);
      "Range options: " +:+ options_text (range_options res);
      "County options: " +:+ options_text (county_options res);
      separator ]
    (results, Some {[ "filename" := CStr (filename res) ]})
  = (results ++ [parsed_record res], None).
Proof.
  intros Hflag Hfree. unfold header_free in Hfree.
  repeat match goal with
         | H : Forall _ (_ :: _) |- _ =>
             let Hhead := fresh "Htext" in
             apply Forall_cons in H as [Hhead H]
         end.
  cbn [fold_left].
  rewrite (parse_key_line "Doc Num" "doc_num" (doc_num res))
    by first [reflexivity | assumption | apply (result_truthy_insert ∅)].
  rewrite (parse_key_line "Corner of Section" "corner_of_section" (corner_of_section res))
    by first [reflexivity | assumption | apply result_truthy_insert].
  rewrite (parse_key_line "Township (value)" "township" (township res))
    by first [reflexivity | assumption | apply result_truthy_insert].
  rewrite (parse_key_line "Range (value)" "range" (range res))
    by first [reflexivity | assumption | apply result_truthy_insert].
  rewrite (parse_key_line "County (value)" "county" (county res))
    by first [reflexivity | assumption | apply result_truthy_insert].
  rewrite (parse_key_line "Image present (bool)" "image_present_bool"
             (bool_text (image_present_bool res)))
    by first [reflexivity | apply result_truthy_insert
             | destruct (image_present_bool res); reflexivity].
  rewrite (parse_key_line "Image present (Y/N)" "image_present_flag"
             (image_present_flag res))
    by first [reflexivity | apply result_truthy_insert
             | rewrite Hflag; destruct (image_present_bool res); reflexivity].
  rewrite (parse_key_line "Township options" "township_options"
             (options_text (township_options res)))
    by first [reflexivity | assumption | apply result_truthy_insert].
  rewrite (parse_key_line "Range options" "range_options"
             (options_text (range_options res)))
    by first [reflexivity | assumption | apply result_truthy_insert].
  rewrite (parse_key_line "County options" "county_options"
             (options_text (county_options res)))
    by first [reflexivity | assumption | apply result_truthy_insert].
  rewrite parse_line_separator by apply result_truthy_insert.
  unfold parsed_record. rewrite Hflag.
  destruct (image_present_bool res); reflexivity.
Qed.
Lemma fold_left_step {A B : Type} (f : A -> B -> A) (x : B) (l : list B) (a : A) :
  fold_left f (x :: l) a = fold_left f l (f a x).
Proof. reflexivity. Qed.

(** What [process_pdf] printed for a record, parsed. *)
Lemma printed_record_parsed (pdf_path : string) (res : ExtractionResult) :
  fst (process_pdf pdf_path) = Some res ->
  Forall (fun p => single_line (console_line p)) (snd (process_pdf pdf_path)) ->
  filename res <> "" ->
  header_free res ->
  has_char "E" ts = false ->
  exists earlier,
    parse_batch_output (console (snd (process_pdf pdf_path)))
    = earlier ++ [parsed_record res].
Proof.
  rewrite process_pdf_result, process_pdf_printed.
  destruct (load_reader pdf_path) as [reader|e]; [|discriminate].
  destruct (get_fields_dict reader) as [fields|e]; [|discriminate].
  intros [= <-].
  destruct (extract_printed pdf_path reader fields) as (Hflag & warnings & _ & Hp).
  rewrite Hp. set (res := fst (extract pdf_path reader fields)) in *. clearbody res.
  intros Hsingle Hname Hfree Hts.
  set (head := firstn 11 (results_block res)).
  assert (Hblock : results_block res = head ++ [Out separator]) by reflexivity.
  rewrite Hblock in Hsingle |- *.
  set (before := INFO_processing pdf_path :: warnings ++ head).
  assert (Hprinted : INFO_processing pdf_path :: warnings ++ head ++ [Out separator]
                     = before ++ [Out separator]).
  { unfold before. cbn [app]. rewrite <- app_assoc. reflexivity. }
  rewrite Hprinted in Hsingle |- *.
  apply Forall_app in Hsingle as [Hbefore _].
  unfold parse_batch_output, strip.
  replace (lstrip (console (before ++ [Out separator])))
    with (console (before ++ [Out separator])) by reflexivity.
  rewrite (lines_to_separator _ Hbefore).
  assert (Hhead : Forall (fun p => single_line (console_line p)) head).
  { unfold before in Hbefore. inversion Hbefore as [|? ? _ Hrest]; subst.
    apply Forall_app in Hrest as [_ Hh]. exact Hh. }
  assert (Hfile : single_line (filename res)).
  { inversion Hhead as [|? ? Hheader _]; subst.
    cbn [console_line] in Hheader. unfold stamp in Hheader.
    do 6 (apply single_line_app in Hheader as [_ Hheader]).
    apply single_line_app in Hheader as [Hheader _]. exact Hheader. }
  unfold before. cbn [map]. rewrite map_app. cbn [app].
  rewrite <- app_assoc. cbn [fold_left]. rewrite fold_left_app.
  set (st0 := fold_left parse_line (map console_line warnings) _).
  unfold head. cbn [firstn results_block map app].
  rewrite fold_left_step.
  rewrite (header_line_named st0 _ Hts Hname Hfile).
  rewrite (block_lines_parsed res _ Hflag Hfree).
  exists (if result_truthy (snd st0) then append_result (fst st0) (snd st0) else fst st0).
  reflexivity.
Qed.

(** The record that [process_pdf] returns for a document comes back from
    what it printed: the last record that the parser returns holds the
    file name, the five values stripped, the two image outputs as they
    are, and the three option lists joined, stripped and normalized, and
    nothing else.  This needs that no printed line holds a line break, that
    the file has a name, that no value and no option holds the phrase of
    the header, and that the timestamp holds no capital E. *)
Theorem record_round_trip (pdf_path : string) (res : ExtractionResult) :
  fst (process_pdf pdf_path) = Some res ->
  Forall (fun p => single_line (console_line p)) (snd (process_pdf pdf_path)) ->
  filename res <> "" ->
  header_free res ->
  has_char "E" ts = false ->
  exists earlier,
    parse_batch_output (console (snd (process_pdf pdf_path)))
    = earlier ++ [parsed_record res].
Proof. exact (printed_record_parsed pdf_path res). Qed.

(** C8 (as amended).  The option lists of a record, printed by
    [process_pdf] and read again by the parser: when no printed line holds
    a line break, the file has a name, no value and no option holds the
    phrase of the header and the timestamp holds no capital E, each option
    list of the record that is plain comes back from the value that the
    parser stores for it, split at the commas. *)
Theorem options_round_trip (pdf_path : string) (res : ExtractionResult) :
  fst (process_pdf pdf_path) = Some res ->
  Forall (fun p => single_line (console_line p)) (snd (process_pdf pdf_path)) ->
  filename res <> "" ->
  header_free res ->
  has_char "E" ts = false ->
  exists earlier d,
    parse_batch_output (console (snd (process_pdf pdf_path))) = earlier ++ [d]
    /\ (plain_options (township_options res) ->
        exists s, d !! "township_options" = Some (CStr s)
                  /\ split_on "," s = township_options res)
    /\ (plain_options (range_options res) ->
        exists s, d !! "range_options" = Some (CStr s)
                  /\ split_on "," s = range_options res)
    /\ (plain_options (county_options res) ->
        exists s, d !! "county_options" = Some (CStr s)
                  /\ split_on "," s = county_options res).
Proof.
  intros Hres Hsingle Hname Hfree Hts.
  destruct (printed_record_parsed pdf_path res Hres Hsingle Hname Hfree Hts)
    as [earlier Hparsed].
  exists earlier, (parsed_record res). split; [exact Hparsed|].
  unfold parsed_record.
  split; [|split]; intros Hplain; eexists; (split; [|exact (normalized_options_split _ Hplain)]).
  - rewrite !lookup_insert_ne by discriminate. apply lookup_insert_eq.
  - rewrite lookup_insert_ne by discriminate. apply lookup_insert_eq.
  - apply lookup_insert_eq.
Qed.

End Extractor.

(** ** The cycles of pdfextract4.0.py *)

Lemma registered_identifiers_cons (result : gmap string Cell)
    (rest : list (gmap string Cell)) :
  registered_identifiers (result :: rest)
  = match registered_identifier result with
    | Some identifier => identifier :: registered_identifiers rest
    | None => registered_identifiers rest
    end.
Proof. reflexivity. Qed.

(** A record that the filter passes over. *)
Lemma unique_results_skip (result : gmap string Cell) (rest : list (gmap string Cell))
    (seen : gset Cell) :
  (forall identifier, registered_identifier result = Some identifier -> identifier ∈ seen) ->
  unique_results (result :: rest) seen = unique_results rest seen.
Proof.
  unfold registered_identifier. intros H. cbn [unique_results].
  destruct (identifier_of result) as [identifier|]; [|reflexivity].
  destruct (cell_truthy identifier); [|reflexivity].
  rewrite (bool_decide_eq_true_2 _ (H _ eq_refl)). reflexivity.
Qed.

(** A record that the filter keeps. *)
Lemma unique_results_keep (result : gmap string Cell) (rest : list (gmap string Cell))
    (seen : gset Cell) (identifier : Cell) :
  registered_identifier result = Some identifier ->
  identifier ∉ seen ->
  unique_results (result :: rest) seen
  = (result :: (unique_results rest ({[ identifier ]} ∪ seen)).1,
     (unique_results rest ({[ identifier ]} ∪ seen)).2).
Proof.
  unfold registered_identifier. intros H Hnew. cbn [unique_results].
  destruct (identifier_of result) as [c|]; [|discriminate].
  destruct (cell_truthy c); [|discriminate]. injection H as ->.
  rewrite (bool_decide_eq_false_2 _ Hnew). simpl.
  destruct (unique_results rest ({[ identifier ]} ∪ seen)). reflexivity.
Qed.

(** What the filter keeps and what it leaves in [seen_identifiers]. *)
Lemma unique_results_spec (results_list : list (gmap string Cell)) (seen : gset Cell) :
  sublist (unique_results results_list seen).1 results_list
  /\ (unique_results results_list seen).2
     = seen ∪ list_to_set (registered_identifiers (unique_results results_list seen).1)
  /\ (forall identifier,
        identifier ∈ registered_identifiers (unique_results results_list seen).1 ->
        identifier ∉ seen)
  /\ Forall (fun result => is_Some (registered_identifier result))
       (unique_results results_list seen).1
  /\ NoDup (registered_identifiers (unique_results results_list seen).1)
  /\ (forall identifier,
        identifier ∈ registered_identifiers results_list ->
        identifier ∈ (unique_results results_list seen).2).
Proof.
  revert seen. induction results_list as [|result rest IH]; intros seen.
  - cbn. split; [constructor|]. split; [symmetry; apply union_empty_r_L|].
    split; [intros c Hc; inversion Hc|]. split; [constructor|].
    split; [constructor | intros c Hc; inversion Hc].
  - destruct (registered_identifier result) as [identifier|] eqn:Hid.
    + destruct (decide (identifier ∈ seen)) as [Hin|Hnew].
      * rewrite unique_results_skip by (intros c Hc; congruence).
        destruct (IH seen) as (Hsub & Hseen & Hfresh & Hlen & Hnd & Hall).
        split; [apply sublist_cons; exact Hsub|]. split; [exact Hseen|].
        split; [exact Hfresh|]. split; [exact Hlen|]. split; [exact Hnd|].
        intros c. rewrite registered_identifiers_cons, Hid.
        intros [->|Hc]%elem_of_cons; [|auto].
        rewrite Hseen. apply elem_of_union_l. exact Hin.
      * rewrite (unique_results_keep _ _ _ _ Hid Hnew).
        destruct (IH ({[ identifier ]} ∪ seen)) as (Hsub & Hseen & Hfresh & Hlen & Hnd & Hall).
        cbn [fst snd]. rewrite !registered_identifiers_cons, Hid.
        split; [apply sublist_skip; exact Hsub|].
        split.
        { rewrite Hseen. cbn [list_to_set].
          rewrite (comm_L (∪) {[ identifier ]} seen), <- (assoc_L (∪)). reflexivity. }
        split.
        { intros c [->|Hc]%elem_of_cons; [exact Hnew|].
          intros Hseen'. apply (Hfresh _ Hc). apply elem_of_union_r. exact Hseen'. }
        split; [constructor; [rewrite Hid; eexists; reflexivity | exact Hlen]|].
        split.
        { constructor; [|exact Hnd]. intros Hc. apply (Hfresh _ Hc).
          apply elem_of_union_l, elem_of_singleton. reflexivity. }
        intros c [->|Hc]%elem_of_cons; [|auto].
        rewrite Hseen. apply elem_of_union_l, elem_of_union_l, elem_of_singleton. reflexivity.
    + rewrite unique_results_skip by (intros c Hc; congruence).
      destruct (IH seen) as (Hsub & Hseen & Hfresh & Hlen & Hnd & Hall).
      split; [apply sublist_cons; exact Hsub|]. split; [exact Hseen|].
      split; [exact Hfresh|]. split; [exact Hlen|]. split; [exact Hnd|].
      intros c. rewrite registered_identifiers_cons, Hid. auto.
Qed.

(** When every identifier of the records is in [seen_identifiers], the
    filter keeps nothing. *)
Lemma unique_results_all_seen (results_list : list (gmap string Cell)) (seen : gset Cell) :
  (forall identifier, identifier ∈ registered_identifiers results_list -> identifier ∈ seen) ->
  unique_results results_list seen = ([], seen).
Proof.
  induction results_list as [|result rest IH]; intros Hall; [reflexivity|].
  rewrite registered_identifiers_cons in Hall.
  rewrite unique_results_skip.
  - apply IH. intros c Hc. apply Hall.
    destruct (registered_identifier result); [apply elem_of_cons; right|]; exact Hc.
  - intros c Hc. apply Hall. rewrite Hc. apply elem_of_cons. left. reflexivity.
Qed.

(** The records and the set after a cycle are those of the filter, run
    over the records parsed from the output of the batch script, or over
    nothing when the script failed. *)
Lemma process_cycle_filter (cycle_number : nat) (seen : gset Cell)
    (batch_result : option string) :
  (process_cycle cycle_number seen batch_result).1
  = unique_results
      (match batch_result with
       | Some batch_output => parse_batch_output batch_output
       | None => []
       end) seen.
Proof.
  unfold process_cycle. destruct batch_result as [batch_output|]; [|reflexivity].
  destruct (parse_batch_output batch_output) as [|result rest]; [reflexivity|].
  destruct (unique_results (result :: rest) seen). reflexivity.
Qed.

(** The records that a cycle returns are records parsed from the output of
    the batch script, in their order (none when the script failed); each
    has an identifier, its "doc_num" or else its "filename", that is not
    empty and was not in [seen_identifiers] before the cycle, no two of them
    share their identifier, and the cycle leaves in [seen_identifiers] what
    was there and the identifiers of the records it returns. *)
Theorem cycle_returns_new_records (cycle_number : nat) (seen : gset Cell)
    (batch_result : option string) :
  let unique := (process_cycle cycle_number seen batch_result).1.1 in
  let seen' := (process_cycle cycle_number seen batch_result).1.2 in
  sublist unique
    (match batch_result with
     | Some batch_output => parse_batch_output batch_output
     | None => []
     end)
  /\ Forall (fun result =>
               exists identifier,
                 registered_identifier result = Some identifier
                 /\ cell_truthy identifier = true
                 /\ identifier ∉ seen) unique
  /\ NoDup (registered_identifiers unique)
  /\ seen' = seen ∪ list_to_set (registered_identifiers unique).
Proof.
  cbn zeta. rewrite process_cycle_filter.
  destruct (unique_results_spec
              (match batch_result with
               | Some batch_output => parse_batch_output batch_output
               | None => []
               end) seen) as (Hsub & Hseen & Hfresh & Hsome & Hnd & _).
  split; [exact Hsub|]. split; [|split; [exact Hnd | exact Hseen]].
  apply Forall_forall. intros result Hin.
  destruct (proj1 (Forall_forall _ _) Hsome _ Hin) as [identifier Hid].
  exists identifier. split; [exact Hid|]. split.
  - unfold registered_identifier in Hid.
    destruct (identifier_of result) as [c|]; [|discriminate].
    destruct (cell_truthy c) eqn:Hc; [|discriminate]. injection Hid as <-. exact Hc.
  - apply Hfresh. apply list_elem_of_omap. exists result. split; [exact Hin | exact Hid].
Qed.

(** After a cycle, the identifier of every record parsed from the output is
    in [seen_identifiers]: a record that the cycle did not return had no
    identifier or one that was seen before it.  A later cycle that finds
    the same output returns nothing and leaves the set as it is. *)
Theorem repeated_cycle_adds_nothing (cycle_number later_cycle : nat) (seen : gset Cell)
    (batch_output : string) :
  let seen' := (process_cycle cycle_number seen (Some batch_output)).1.2 in
  (forall identifier,
      identifier ∈ registered_identifiers (parse_batch_output batch_output) ->
      identifier ∈ seen')
  /\ (process_cycle later_cycle seen' (Some batch_output)).1 = ([], seen').
Proof.
  cbn zeta. rewrite !process_cycle_filter.
  destruct (unique_results_spec (parse_batch_output batch_output) seen)
    as (_ & _ & _ & _ & _ & Hall).
  split; [exact Hall|]. apply unique_results_all_seen. exact Hall.
Qed.

Lemma run_cycles_invariant (batch_results : list (option string)) (cycle_count : nat)
    (all_results : list (gmap string Cell)) (seen : gset Cell) :
  NoDup (registered_identifiers all_results) ->
  Forall (fun result => is_Some (registered_identifier result)) all_results ->
  (forall identifier, identifier ∈ registered_identifiers all_results -> identifier ∈ seen) ->
  NoDup (registered_identifiers (run_cycles batch_results cycle_count all_results seen).1)
  /\ Forall (fun result => is_Some (registered_identifier result))
       (run_cycles batch_results cycle_count all_results seen).1.
Proof.
  revert cycle_count all_results seen.
  induction batch_results as [|batch_result rest IH]; intros cycle_count all_results seen
    Hnd Hsome Hseen; [split; assumption|].
  cbn [run_cycles].
  pose proof (process_cycle_filter (S cycle_count) seen batch_result) as Hfilter.
  destruct (process_cycle (S cycle_count) seen batch_result) as [[cycle_results seen'] printed].
  cbn [fst] in Hfilter.
  destruct (unique_results_spec
              (match batch_result with
               | Some batch_output => parse_batch_output batch_output
               | None => []
               end) seen) as (_ & Hseen' & Hfresh & Hsome' & Hnd' & _).
  rewrite <- Hfilter in Hseen', Hfresh, Hsome', Hnd'. cbn [fst snd] in *.
  apply IH.
  - unfold registered_identifiers. rewrite omap_app. apply NoDup_app.
    split; [exact Hnd|]. split; [|exact Hnd'].
    intros c Hc Hc'. exact (Hfresh _ Hc' (Hseen _ Hc)).
  - apply Forall_app. split; assumption.
  - unfold registered_identifiers. rewrite omap_app. intros c [Hc|Hc]%elem_of_app.
    + rewrite Hseen'. apply elem_of_union_l. exact (Hseen _ Hc).
    + rewrite Hseen'. apply elem_of_union_r, elem_of_list_to_set. exact Hc.
Qed.

(** The records that [main] collects over its cycles, starting from no
    record and an empty set: each has an identifier, and no two share it,
    whatever the batch script printed in each cycle and however many cycles
    ran. *)
Theorem collected_records_unique (batch_results : list (option string)) :
  NoDup (registered_identifiers (run_cycles batch_results 0 [] ∅).1)
  /\ Forall (fun result => is_Some (registered_identifier result))
       (run_cycles batch_results 0 [] ∅).1.
Proof.
  apply run_cycles_invariant.
  - constructor.
  - constructor.
  - intros c Hc. inversion Hc.
Qed.

(** ** The identifiers of parsed records *)

Lemma match_group_colon_not_empty (s name : string) :
  match_group_colon s = Some name -> name <> "".
Proof.
  unfold match_group_colon.
  destruct (before_last_colon (until_newline s)) as [[|c g]|]; congruence.
Qed.

Lemma search_results_for_not_empty (line name : string) :
  search_results_for line = Some name -> name <> "".
Proof.
  induction line as [|c rest IH].
  - simpl. discriminate.
  - cbn [search_results_for].
    destruct (strip_prefix "Extraction results for " (String c rest)) as [tail|].
    + destruct (match_group_colon tail) as [g|] eqn:Hg.
      * intros [= <-]. exact (match_group_colon_not_empty _ _ Hg).
      * exact IH.
    + exact IH.
Qed.

(** Every record that the parser returns has an identifier for the filter
    of [process_cycle], and it is a string that is not empty: the
    "doc_num" read, or the file name of the header, which the pattern makes
    hold a character at least.  The filter of a cycle hence leaves out a
    parsed record only when its identifier is in [seen_identifiers]. *)
Theorem parsed_records_identified (output : string) :
  Forall (fun result =>
            exists s, registered_identifier result = Some (CStr s) /\ s <> "")
    (parse_batch_output output).
Proof.
  apply Forall_forall. intros d Hin.
  pose proof (proj1 (Forall_forall _ _) (parse_batch_output_shape output) d Hin)
    as [[name Hname] Hcells].
  assert (Hne : name <> "").
  { assert (Hmem : record_name d ∈ omap header_name (split_on "010" (strip output))).
    { rewrite <- parse_batch_output_names. apply list_elem_of_fmap. exists d. auto. }
    apply list_elem_of_omap in Hmem as (line & _ & Hline).
    unfold record_name in Hline. rewrite Hname in Hline.
    unfold header_name in Hline.
    destruct (str_contains "Extraction results for" line); [|discriminate].
    exact (search_results_for_not_empty _ _ Hline). }
  assert (Hfile : exists s, (if cell_truthy (CStr name) then Some (CStr name) else None)
                            = Some (CStr s) /\ s <> "").
  { exists name. simpl. destruct (String.eqb_spec name ""); [contradiction|]. auto. }
  unfold registered_identifier, identifier_of.
  destruct (d !! "doc_num") as [c|] eqn:Hdoc; [|rewrite Hname; exact Hfile].
  destruct (Hcells _ _ Hdoc) as [_ Hshape].
  destruct c as [s|b]; [|discriminate].
  destruct (cell_truthy (CStr s)) eqn:Hs; [|rewrite Hname; exact Hfile].
  rewrite Hs. exists s. split; [reflexivity|].
  simpl in Hs. intros ->. discriminate.
Qed.

(** ** The theorems at the example documents *)

Lemma appearance_button_is_button : is_button appearance_button.
Proof. exists (NameObject "/Btn"). split; reflexivity. Qed.

Lemma appearance_button_no_icon : no_icon appearance_button.
Proof. exists PyNone. split; [reflexivity | left; reflexivity]. Qed.

Lemma appearance_image_example (c : stream_class) :
  appearance_image true
    (document [IndirectObject 4] [(4, appearance_button); (5, appearance_stream c); (6, image_xobject)])
    appearance_button c.
Proof.
  exists (DictionaryObject [("/N", IndirectObject 5)]), (IndirectObject 5).
  eexists. exists (DictionaryObject [("/XObject", DictionaryObject [("/Im0", IndirectObject 6)])]).
  exists (DictionaryObject [("/Im0", IndirectObject 6)]).
  exists (DictionaryObject [("/Im0", IndirectObject 6)]).
  exists (IndirectObject 6), image_xobject, (NameObject "/Image").
  repeat split; try reflexivity. simpl. auto.
Qed.

(** C1: the detector misses the image of a filtered appearance stream.
    The Button has no icon entry, an Image XObject is among the resources
    of its normal appearance stream, and the detector answers false,
    because the test for a stream only admits a [DecodedStreamObject] and
    the stream, read with a [/Filter], is an [EncodedStreamObject]. *)
Lemma filtered_appearance_image_missed :
  find_field_obj filtered_appearance_document "Survey Image" = Return appearance_button
  /\ is_button appearance_button
  /\ no_icon appearance_button
  /\ normal_appearance_image true filtered_appearance_document appearance_button
  /\ detect_image_in_button true filtered_appearance_document "Survey Image" = (false, [])
  /\ ~ (fst (detect_image_in_button true filtered_appearance_document "Survey Image") = true
        <-> normal_appearance_image true filtered_appearance_document appearance_button).
Proof.
  assert (Himg : normal_appearance_image true filtered_appearance_document appearance_button)
    by (exists EncodedStreamObject; apply appearance_image_example).
  repeat split.
  - apply appearance_button_is_button.
  - apply appearance_button_no_icon.
  - exact Himg.
  - intros [_ H]. specialize (H Himg). vm_compute in H. discriminate.
Qed.

Lemma appearance_scan_decides_witness :
  fst (detect_image_in_button true plain_appearance_document "Survey Image") = true
  /\ fst (detect_image_in_button true filtered_appearance_document "Survey Image") = false.
Proof.
  split.
  - apply (appearance_scan_decides true plain_appearance_document "Survey Image"
             appearance_button).
    + reflexivity.
    + exists (NameObject "/Btn"). split; reflexivity.
    + exists PyNone. split; [reflexivity | left; reflexivity].
    + apply (appearance_image_example DecodedStreamObject).
  - apply (proj2 (appearance_scan_decides true filtered_appearance_document "Survey Image"
                    appearance_button eq_refl
                    (ex_intro _ (NameObject "/Btn") (conj eq_refl eq_refl))
                    (ex_intro _ PyNone (conj eq_refl (or_introl eq_refl))))
             (DictionaryObject [("/N", IndirectObject 5)]) (IndirectObject 5)
             [ ("/Type", NameObject "/XObject");
               ("/Subtype", NameObject "/Form");
               ("/Resources",
                DictionaryObject
                  [("/XObject", DictionaryObject [("/Im0", IndirectObject 6)])]) ]).
    + reflexivity.
    + reflexivity.
    + right. reflexivity.
Defined.

Lemma icon_entry_suffices_witness :
  detect_image_in_button true icon_document "Survey Image" = (true, []).
Proof.
  apply (icon_entry_suffices true icon_document "Survey Image" icon_button).
  - reflexivity.
  - exists (NameObject "/Btn"). split; reflexivity.
  - exists (DictionaryObject [("/I", IndirectObject 7)]), (IndirectObject 7).
    repeat split; try reflexivity. discriminate.
Defined.


Lemma get_choice_options_stored_order_witness :
  get_choice_options no_repr township_document "Township" = (["1N"; "2N"], [])
  /\ get_choice_options no_repr township_document "County" = ([], [])
  /\ get_choice_options no_repr referenced_catalog_document "Township"
     = ([], [WARN_options "Township" AttributeError]).
Proof.
  destruct (get_choice_options_stored_order no_repr township_document "Township")
    as (Hstored & _).
  destruct (get_choice_options_stored_order no_repr township_document "County")
    as (_ & Habsent & _).
  destruct (get_choice_options_stored_order no_repr referenced_catalog_document "Township")
    as (_ & _ & _ & Hraise).
  split; [|split].
  - apply (Hstored township_field
             [ TextStringObject "1N";
               ArrayObject [TextStringObject "2N"; TextStringObject "Two North"] ]).
    + reflexivity.
    + reflexivity.
    + repeat constructor.
  - apply Habsent. reflexivity.
  - apply Hraise. reflexivity.
Defined.


(** C4: for a document without form the index is [None], not the empty
    mapping that the fallback branch returns for such a document. *)
Lemma formless_index_is_none :
  no_form formless_document
  /\ get_fields_dict empty_walk formless_document = Return None
  /\ get_fields_dict empty_walk formless_document <> Return (Some ∅)
  /\ get_value no_repr None "County" = ("", [WARN_value "County" AttributeError])
  /\ fields_fallback
       {| trailer := [("/Root", DictionaryObject [("/Type", NameObject "/Catalog")])];
          objects := [] |}
     = Return ∅.
Proof.
  split; [|split; [|split; [|split]]].
  - exists (DictionaryObject [("/Type", NameObject "/Catalog")]). split; reflexivity.
  - reflexivity.
  - discriminate.
  - reflexivity.
  - reflexivity.
Qed.

Lemma formless_document_reads_witness :
  get_fields_dict empty_walk formless_document = Return None
  /\ get_value no_repr None "County" = ("", [WARN_value "County" AttributeError])
  /\ get_fields_dict empty_walk {| trailer := []; objects := [] |} = Return (Some ∅).
Proof.
  destruct (formless_document_reads no_repr empty_walk formless_document) as [Hform _].
  destruct (formless_document_reads no_repr empty_walk {| trailer := []; objects := [] |})
    as [_ Hroot].
  destruct Hform as [Hnone Hread].
  - exists (DictionaryObject [("/Type", NameObject "/Catalog")]). split; reflexivity.
  - destruct Hroot as [Hempty _]; [reflexivity|].
    split; [exact Hnone | split; [apply Hread | exact Hempty]].
Defined.

Lemma document_failure_contained_witness :
  fst (process_pdf no_repr empty_walk true example_files example_basename "corrupt.pdf") = None
  /\ fst (process_files no_repr empty_walk true example_files example_basename
            ["a.pdf"; "corrupt.pdf"; "b.pdf"])
     = fst (process_files no_repr empty_walk true example_files example_basename ["a.pdf"])
       ++ fst (process_files no_repr empty_walk true example_files example_basename ["b.pdf"]).
Proof.
  destruct (document_failure_contained no_repr empty_walk true example_files
              example_basename (fun _ => None) "corrupt.pdf") as (Hiff & Hbatch & _).
  assert (Hnone : fst (process_pdf no_repr empty_walk true example_files example_basename
                         "corrupt.pdf") = None).
  { apply Hiff. left. exists PdfReadError. reflexivity. }
  split; [exact Hnone|].
  destruct (Hbatch Hnone) as [_ Hsplit].
  exact (Hsplit ["a.pdf"] ["b.pdf"]).
Defined.



(** C8, as the specification words it, fails on the option list ["None"]:
    no entry holds a comma, the line printed for the list reads "Township
    options: None", and the parser stores the empty string for it, which
    splits into one empty entry. *)
Lemma none_option_is_lost :
  fst (get_choice_options no_repr none_option_document "Township") = ["None"]
  /\ Forall (fun x => has_char "," x = false) ["None"]
  /\ exists d,
       parse_batch_output
         (console example_ts example_exc_text
            (snd (process_pdf no_repr empty_walk true none_option_files example_basename
                    "form.pdf")))
       = [d]
       /\ d !! "township_options" = Some (CStr "")
       /\ split_on "," "" <> ["None"].
Proof.
  split; [reflexivity|]. split; [repeat constructor|].
  exists (parsed_record
            (fst (extract no_repr true example_basename "form.pdf" none_option_document
                    (Some ∅)))).
  split; [vm_compute; reflexivity|]. split; [reflexivity | discriminate].
Qed.

Lemma options_round_trip_witness :
  exists earlier d,
    parse_batch_output
      (console example_ts example_exc_text
         (snd (process_pdf no_repr empty_walk true township_files example_basename
                 "form.pdf")))
    = earlier ++ [d]
    /\ exists s, d !! "township_options" = Some (CStr s) /\ split_on "," s = ["1N"; "2N"].
Proof.
  destruct (options_round_trip no_repr empty_walk true township_files example_basename
              example_ts example_exc_text "form.pdf"
              (fst (extract no_repr true example_basename "form.pdf" township_document
                      (Some ∅))))
    as (earlier & d & Hparsed & Htownship & _).
  - vm_compute. reflexivity.
  - vm_compute. repeat constructor.
  - discriminate.
  - vm_compute. repeat constructor.
  - reflexivity.
  - exists earlier, d. split; [exact Hparsed|].
    apply Htownship. split; [discriminate|]. split; [repeat constructor|].
    split; [reflexivity | discriminate].
Defined.

(** C3, as the specification words it, fails on a document one of whose
    options holds a line break followed by the text of an image line: the
    record that [process_pdf] returns is consistent, but the record parsed
    from what it prints has the boolean true and the flag "N". *)
Lemma line_break_breaks_consistency :
  Forall consistent_result
    (fst (process_files no_repr empty_walk true two_line_files example_basename ["form.pdf"]))
  /\ (exists d,
        parse_batch_output
          (console example_ts example_exc_text
             (snd (process_files no_repr empty_walk true two_line_files example_basename
                     ["form.pdf"])))
        = [d]
        /\ d !! "image_present_bool" = Some (CBool true)
        /\ d !! "image_present_flag" = Some (CStr "N"))
  /\ ~ Forall consistent_record
         (parse_batch_output
            (console example_ts example_exc_text
               (snd (process_files no_repr empty_walk true two_line_files example_basename
                       ["form.pdf"])))).
Proof.
  assert (Hd : exists d,
             parse_batch_output
               (console example_ts example_exc_text
                  (snd (process_files no_repr empty_walk true two_line_files
                          example_basename ["form.pdf"])))
             = [d]
             /\ d !! "image_present_bool" = Some (CBool true)
             /\ d !! "image_present_flag" = Some (CStr "N")).
  { exists (<["county_options" := CStr ""]>
            (<["range_options" := CStr ""]>
            (<["image_present_bool" := CBool true]>
            (<["township_options" := CStr "1N"]>
            (<["image_present_flag" := CStr "N"]>
            (<["image_present_bool" := CBool false]>
            (<["county" := CStr ""]>
            (<["range" := CStr ""]>
            (<["township" := CStr ""]>
            (<["corner_of_section" := CStr ""]>
            (<["doc_num" := CStr ""]>
            {[ "filename" := CStr "form.pdf" ]}))))))))))).
    split; [vm_compute; reflexivity|]. split; reflexivity. }
  split; [|split].
  - vm_compute. repeat constructor; intros H; discriminate.
  - exact Hd.
  - destruct Hd as (d & -> & Hb & Hf). intros Hall.
    inversion Hall as [|? ? [_ [Hn _]] _]; subst.
    specialize (Hn Hf). congruence.
Qed.

Lemma image_outputs_consistent_witness :
  Forall consistent_result
    (fst (process_files no_repr empty_walk true icon_files example_basename
            ["form.pdf"; "corrupt.pdf"]))
  /\ Forall consistent_record
       (parse_batch_output
          (console example_ts example_exc_text
             (snd (process_files no_repr empty_walk true icon_files example_basename
                     ["form.pdf"; "corrupt.pdf"])))).
Proof.
  destruct (image_outputs_consistent no_repr empty_walk true icon_files example_basename
              example_ts example_exc_text ["form.pdf"; "corrupt.pdf"]) as [Hres Hparse].
  split; [exact Hres|].
  apply Hparse. vm_compute. repeat constructor.
Defined.

(** What the parser reads from that run: one record, with the boolean true
    and the flag "Y". *)
Lemma parsed_icon_record :
  exists d,
    parse_batch_output
      (console example_ts example_exc_text
         (snd (process_files no_repr empty_walk true icon_files example_basename
                 ["form.pdf"; "corrupt.pdf"])))
    = [d]
    /\ d !! "filename" = Some (CStr "form.pdf")
    /\ d !! "image_present_bool" = Some (CBool true)
    /\ d !! "image_present_flag" = Some (CStr "Y")
    /\ d !! "township_options" = Some (CStr "").
Proof.
  exists (parsed_record
            (fst (extract no_repr true example_basename "form.pdf" icon_document (Some ∅)))).
  split; [vm_compute; reflexivity|]. repeat split; reflexivity.
Qed.

Lemma referenced_catalog_stops_locator_witness :
  find_field_obj referenced_catalog_document "Survey Image" = Raise AttributeError
  /\ get_choice_options no_repr referenced_catalog_document "Survey Image"
     = ([], [WARN_options "Survey Image" AttributeError])
  /\ detect_image_in_button true referenced_catalog_document "Survey Image"
     = (false, [WARN_image "Survey Image" AttributeError]).
Proof.
  destruct (referenced_catalog_stops_locator no_repr true referenced_catalog_document 1
              "Survey Image" eq_refl) as (Hfind & Hopt & Himg).
  split; [exact Hfind | split; [exact Hopt | exact Himg]].
Defined.

Lemma parsed_record_keeps_image_witness :
  exists d,
    In d (parse_batch_output
            (console example_ts example_exc_text
               (snd (process_pdf no_repr empty_walk true icon_files example_basename
                       "form.pdf"))))
    /\ holds_image true "Y" d.
Proof.
  change (holds_image true "Y")
    with (holds_image
            (image_present_bool
               (fst (extract no_repr true example_basename "form.pdf" icon_document
                       (Some ∅))))
            (image_present_flag
               (fst (extract no_repr true example_basename "form.pdf" icon_document
                       (Some ∅))))).
  apply (parsed_record_keeps_image no_repr empty_walk true icon_files example_basename
           example_ts example_exc_text "form.pdf"
           (fst (extract no_repr true example_basename "form.pdf" icon_document (Some ∅)))).
  - reflexivity.
  - vm_compute. repeat constructor.
  - discriminate.
Defined.

(** ** The locator, the detector and the fallback index on the examples *)

Lemma find_field_obj_sound_witness :
  icon_button = PyNone
  \/ (named "Survey Image" icon_button = true
      /\ exists c entries,
           icon_button = DictionaryObject entries \/ icon_button = StreamObject c entries).
Proof.
  apply (find_field_obj_sound icon_document "Survey Image" icon_button).
  reflexivity.
Defined.

(** "Township" is a choice field: the detector does not look further. *)
Lemma detector_type_gate_witness :
  detect_image_in_button true township_document "Township" = (false, []).
Proof.
  apply (detector_type_gate true township_document "Township" township_field).
  - reflexivity.
  - intros (ft & Hft & Hbtn). vm_compute in Hft. injection Hft as <-. discriminate.
Defined.



(** Three documents, one of which cannot be parsed: two records, and the
    warning of one failure closes the cycle. *)
Lemma cycle_counts_witness :
  fst (process_batch no_repr empty_walk true example_files example_basename example_glob
         "forms" 1) = (3, 2)
  /\ List.last (snd (process_batch no_repr empty_walk true example_files example_basename
                       example_glob "forms" 1)) (Out "")
     = WARN_cycle_failed 1 1.
Proof.
  destruct (cycle_counts no_repr empty_walk true example_files example_basename example_glob
              "forms" 1 ["a.pdf"; "corrupt.pdf"; "b.pdf"] eq_refl ltac:(discriminate))
    as (Hattempted & Hsum & _ & Hwarn).
  split; [reflexivity|].
  exact (Hwarn ltac:(vm_compute; lia)).
Defined.

(** The record of the document with the icon, read again from what was
    printed for it. *)
Lemma record_round_trip_witness :
  exists earlier,
    parse_batch_output
      (console example_ts example_exc_text
         (snd (process_pdf no_repr empty_walk true icon_files example_basename "form.pdf")))
    = earlier
      ++ [parsed_record
            (fst (extract no_repr true example_basename "form.pdf" icon_document (Some ∅)))].
Proof.
  apply (record_round_trip no_repr empty_walk true icon_files example_basename
           example_ts example_exc_text "form.pdf"
           (fst (extract no_repr true example_basename "form.pdf" icon_document (Some ∅)))).
  - reflexivity.
  - vm_compute. repeat constructor.
  - discriminate.
  - vm_compute. repeat constructor.
  - reflexivity.
Defined.

(** ** Documents as writers store them, and a form with a broken entry *)

(** C2: the Button "Survey Image" has an icon, and the detector answers
    false with a warning, because the trailer refers to the catalog and the
    locator asks the reference for its [/AcroForm]; with the catalog held by
    the trailer itself the same field gives true. *)
Lemma referenced_catalog_icon_missed :
  get_object referenced_catalog_document (IndirectObject 4) = Return icon_button
  /\ is_button icon_button
  /\ has_icon icon_button
  /\ detect_image_in_button true referenced_catalog_document "Survey Image"
     = (false, [WARN_image "Survey Image" AttributeError])
  /\ detect_image_in_button true icon_document "Survey Image" = (true, []).
Proof.
  split; [reflexivity|]. split; [|split; [|split; reflexivity]].
  - exists (NameObject "/Btn"). split; reflexivity.
  - exists (DictionaryObject [("/I", IndirectObject 7)]), (IndirectObject 7).
    repeat split; try reflexivity. discriminate.
Qed.

(** C5: the Choice field "Township" stores two options, and the reader of
    the options answers with the empty list and a warning, because the
    trailer refers to the catalog; with the catalog held by the trailer
    itself the same field gives its options in the stored order. *)
Lemma referenced_catalog_options_missed :
  get_object referenced_township_document (IndirectObject 4) = Return township_field
  /\ get_choice_options no_repr referenced_township_document "Township"
     = ([], [WARN_options "Township" AttributeError])
  /\ get_choice_options no_repr township_document "Township" = (["1N"; "2N"], []).
Proof. repeat split; reflexivity. Qed.

(** C10: one entry of [/Fields] refers to an object that the file does not
    hold.  When PyPDF2's [get_fields] gives up on the form, the fallback of
    [get_fields_dict] meets that entry outside any [try], and the document
    ends without record, although its field "Doc Num" is there and holds a
    value; without the broken entry the same loop builds the index. *)
Lemma dangling_field_loses_record :
  get_fields_dict failing_walk dangling_document = Raise AttributeError
  /\ process_pdf no_repr failing_walk true dangling_files example_basename "dangling.pdf"
     = (None,
        [INFO_processing "dangling.pdf"; ERROR_extraction "dangling.pdf" AttributeError])
  /\ find_field_obj dangling_document "Doc Num" = Return doc_num_field
  /\ py_get doc_num_field "/V" = Return (TextStringObject "D-1")
  /\ fields_fallback sound_document = Return {[ "Doc Num" := doc_num_field ]}
  /\ fst (process_files no_repr failing_walk true dangling_files example_basename
            ["dangling.pdf"]) = [].
Proof.
  split; [reflexivity|]. split; [reflexivity|]. split; [reflexivity|].
  split; [reflexivity|]. split; [vm_compute; f_equal | reflexivity].
Qed.
